(** * Terminal accessibility contribution

    A shallow embedding of
    [vs/workbench/contrib/terminalContrib/accessibility/browser/terminal.accessibility.contribution.ts]:
    the [AccessibleBufferContribution] class, the accessibility-help
    implementation registered by [TerminalAccessibilityHelpContribution],
    and the four terminal actions registered at module load.

    The file is glue over host services.  Every call by which it makes
    the host act (terminal service, [createInstance], accessible-view
    service, the buffer widget, the quick pick) is recorded, in order, in
    the [calls] log of the [World]; what the host answers is read from
    the [World].  Lookups that only fetch an object ([accessor.get],
    [instance.getContribution], [instance.xterm]) are reads and leave no
    entry.  Handlers are [async] functions made of sequential [await]s
    on a single thread; each one is embedded as one action of a state
    monad, with no other callback run between two of its awaits. *)

From stdpp Require Import gmap strings list.
From Stdlib Require Import ZArith Lia.

Set Warnings "-register-all".

(** ** Key codes ([vs/base/common/keyCodes])

    Only the members used by this file.  A chord such as
    [KeyMod.CtrlCmd | KeyMod.Shift | KeyCode.KeyO] is kept as its
    modifiers, in the order written, and its key. *)

Module KeyMod.
Inductive t := CtrlCmd | Shift | Alt | WinCtrl.
End KeyMod.

Module KeyCode.
Inductive t := Tab | KeyO | DownArrow | UpArrow.
End KeyCode.

Record Chord := { modifiers : list KeyMod.t; key : KeyCode.t }.

(** ** Context keys and context-key expressions
    ([vs/platform/contextkey/common/contextkey]) *)

Inductive RawContextKey :=
| CONTEXT_ACCESSIBILITY_MODE_ENABLED
| terminalTabFocusContextKey
| TerminalContextKeys_processSupported
| TerminalContextKeys_terminalHasBeenCreated
| TerminalContextKeys_accessibleBufferFocus
| TerminalContextKeys_focus.

(** A raw key is itself an expression ([Defined]); [negate], [and] and
    [or] build the others, [and] and [or] being variadic. *)
Inductive ContextKeyExpr :=
| Defined (k : RawContextKey)
| Not (e : ContextKeyExpr)
| And (es : list ContextKeyExpr)
| Or (es : list ContextKeyExpr).

Coercion Defined : RawContextKey >-> ContextKeyExpr.

Module ContextKeyExpr_.
Definition or (es : list ContextKeyExpr) : ContextKeyExpr := Or es.
Definition and (es : list ContextKeyExpr) : ContextKeyExpr := And es.
Definition negate (k : RawContextKey) : ContextKeyExpr := Not (Defined k).
End ContextKeyExpr_.

(** A context gives every key its truth value. *)
Definition Context := RawContextKey -> bool.

Fixpoint evaluate (ctx : Context) (e : ContextKeyExpr) : bool :=
  match e with
  | Defined k => ctx k
  | Not e' => negb (evaluate ctx e')
  | And es => forallb (evaluate ctx) es
  | Or es => existsb (evaluate ctx) es
  end.

(** ** Host handles *)

(** [IXtermTerminal & { raw: Terminal }] and [IQuickPick<IQuickPickItem>]
    are opaque to this file. *)
Definition Xterm := nat.
Definition QuickPick := nat.

(** [NavigationType] of [terminalAccessibleBuffer]. *)
Inductive NavigationType := Next | Previous.

(** An [AccessibleBufferContribution] object: its identity and its
    read-only [_instance] field (the id of the terminal instance it is
    attached to).  Its mutable field [_accessibleBufferWidget] lives in
    the [World], keyed by [contributionId]. *)
Record AccessibleBufferContribution_t :=
  { contributionId : nat; _instance : nat }.

(** [ITerminalInstance]: the parts this file reads. *)
Record ITerminalInstance :=
  { instanceId : nat;
    xterm : option Xterm;
    contributions : gmap string AccessibleBufferContribution_t }.

Definition getContribution (instance : ITerminalInstance) (id : string)
  : option AccessibleBufferContribution_t :=
  contributions instance !! id.

(** An [AccessibleBufferWidget], as made by
    [createInstance(AccessibleBufferWidget, instance, xterm)]. *)
Record AccessibleBufferWidget :=
  { widgetId : nat; widgetInstance : nat; widgetXterm : Xterm }.

(** A [TerminalAccessibleContentProvider], as made by
    [createInstance(TerminalAccessibleContentProvider, instance, terminal)]. *)
Record TerminalAccessibleContentProvider :=
  { providerInstance : nat; providerXterm : Xterm }.

(** ** Calls that leave this file *)

Inductive Event :=
| TerminalService_getActiveOrCreateInstance
| TerminalService_revealActiveTerminal
| CreateInstance_AccessibleBufferWidget (w : AccessibleBufferWidget)
| CreateInstance_TerminalAccessibleContentProvider
    (p : TerminalAccessibleContentProvider)
| Widget_show (w : AccessibleBufferWidget)
| Widget_createQuickPick (w : AccessibleBufferWidget)
| Widget_navigateToCommand (w : AccessibleBufferWidget) (type : NavigationType)
| QuickPick_show (q : QuickPick)
| AccessibleViewService_registerProvider
    (p : TerminalAccessibleContentProvider)
| AccessibleViewService_show (id : string).

(** The calls through which a handler reaches the accessible buffer:
    the widget's methods and the quick pick they hand back. *)
Definition is_delegation (e : Event) : bool :=
  match e with
  | Widget_show _ | Widget_createQuickPick _ | Widget_navigateToCommand _ _
  | QuickPick_show _ => true
  | _ => false
  end.

Definition is_widget_construction (e : Event) : bool :=
  match e with
  | CreateInstance_AccessibleBufferWidget _ => true
  | _ => false
  end.

(** ** The world *)

Record World :=
  { (** what [terminalService.getActiveOrCreateInstance()] resolves to *)
    activeInstance : option ITerminalInstance;
    (** what a widget's [createQuickPick()] resolves to *)
    quickPickOf : AccessibleBufferWidget -> option QuickPick;
    (** the field [_accessibleBufferWidget], by contribution; a
        contribution without an entry has it [undefined] *)
    accessibleBufferWidget : gmap nat AccessibleBufferWidget;
    (** what each contribution, as a [DisposableStore], holds *)
    toDispose : gmap nat (list AccessibleBufferWidget);
    (** identity of the next object [createInstance] makes *)
    nextWidgetId : nat;
    (** calls made so far, oldest first *)
    calls : list Event }.

Definition log_call (e : Event) (w : World) : World :=
  {| activeInstance := activeInstance w;
     quickPickOf := quickPickOf w;
     accessibleBufferWidget := accessibleBufferWidget w;
     toDispose := toDispose w;
     nextWidgetId := nextWidgetId w;
     calls := calls w ++ [e] |}.

(** ** The monad of handlers *)

Definition M (A : Type) : Type := World -> A * World.

Definition ret {A} (a : A) : M A := fun w => (a, w).

Definition bind {A B} (m : M A) (k : A -> M B) : M B :=
  fun w => let (a, w') := m w in k a w'.

Notation "x <- m ;; k" := (bind m (fun x => k))
  (at level 100, m at next level, right associativity).
Notation "m ;; k" := (bind m (fun _ => k))
  (at level 100, right associativity).

Definition call (e : Event) : M unit := fun w => (tt, log_call e w).

Definition exec {A} (m : M A) (w : World) : World := snd (m w).
Definition result {A} (m : M A) (w : World) : A := fst (m w).

(** [o?.f()] for a call made for its effect only. *)
Definition opt_do {A} (o : option A) (f : A -> M unit) : M unit :=
  match o with
  | Some a => f a
  | None => ret tt
  end.

(** ** Host services *)

Module ITerminalService.
Definition getActiveOrCreateInstance : M (option ITerminalInstance) :=
  call TerminalService_getActiveOrCreateInstance ;;
  fun w => (activeInstance w, w).

Definition revealActiveTerminal : M unit :=
  call TerminalService_revealActiveTerminal.
End ITerminalService.

Module IInstantiationService.
(** [createInstance(AccessibleBufferWidget, instance, xterm)]: a new
    object every time. *)
Definition createInstance_AccessibleBufferWidget (instance : nat) (xterm : Xterm)
  : M AccessibleBufferWidget :=
  fun w =>
    let widget := {| widgetId := nextWidgetId w;
                     widgetInstance := instance;
                     widgetXterm := xterm |} in
    (widget,
     log_call (CreateInstance_AccessibleBufferWidget widget)
       {| activeInstance := activeInstance w;
          quickPickOf := quickPickOf w;
          accessibleBufferWidget := accessibleBufferWidget w;
          toDispose := toDispose w;
          nextWidgetId := S (nextWidgetId w);
          calls := calls w |}).

Definition createInstance_TerminalAccessibleContentProvider
    (instance : ITerminalInstance) (terminal : Xterm)
  : M TerminalAccessibleContentProvider :=
  let provider := {| providerInstance := instanceId instance;
                     providerXterm := terminal |} in
  call (CreateInstance_TerminalAccessibleContentProvider provider) ;;
  ret provider.
End IInstantiationService.

Module IAccessibleViewService.
Definition registerProvider (p : TerminalAccessibleContentProvider) : M unit :=
  call (AccessibleViewService_registerProvider p).
Definition show (id : string) : M unit :=
  call (AccessibleViewService_show id).
End IAccessibleViewService.

(** The widget's methods ([terminalAccessibleBuffer]) and the quick
    pick's [show]. *)
Module Widget.
Definition show (widget : AccessibleBufferWidget) : M unit :=
  call (Widget_show widget).
Definition createQuickPick (widget : AccessibleBufferWidget) : M (option QuickPick) :=
  call (Widget_createQuickPick widget) ;;
  fun w => (quickPickOf w widget, w).
Definition navigateToCommand (widget : AccessibleBufferWidget) (type : NavigationType)
  : M unit :=
  call (Widget_navigateToCommand widget type).
End Widget.

Definition QuickPick_show_ (q : QuickPick) : M unit := call (QuickPick_show q).

(** ** [class AccessibleBufferContribution extends DisposableStore] *)

Module AccessibleBufferContribution.
Definition ID : string := "terminal.accessible-buffer"%string.

Definition get (instance : ITerminalInstance) : option AccessibleBufferContribution_t :=
  getContribution instance ID.

(** [this._accessibleBufferWidget] *)
Definition read_widget (this : AccessibleBufferContribution_t)
  : M (option AccessibleBufferWidget) :=
  fun w => (accessibleBufferWidget w !! contributionId this, w).

(** [this._accessibleBufferWidget = widget] *)
Definition write_widget (this : AccessibleBufferContribution_t)
    (widget : AccessibleBufferWidget) : M unit :=
  fun w =>
    (tt,
     {| activeInstance := activeInstance w;
        quickPickOf := quickPickOf w;
        accessibleBufferWidget :=
          <[contributionId this := widget]> (accessibleBufferWidget w);
        toDispose := toDispose w;
        nextWidgetId := nextWidgetId w;
        calls := calls w |}).

(** [DisposableStore.add]: keeps the object for disposal and hands it
    back. *)
Definition add (this : AccessibleBufferContribution_t)
    (widget : AccessibleBufferWidget) : M AccessibleBufferWidget :=
  fun w =>
    (widget,
     {| activeInstance := activeInstance w;
        quickPickOf := quickPickOf w;
        accessibleBufferWidget := accessibleBufferWidget w;
        toDispose :=
          <[contributionId this :=
              default [] (toDispose w !! contributionId this) ++ [widget]]>
            (toDispose w);
        nextWidgetId := nextWidgetId w;
        calls := calls w |}).

Definition layout (this : AccessibleBufferContribution_t) (xterm : Xterm) : M unit :=
  current <- read_widget this ;;
  match current with
  | None =>
      created <- IInstantiationService.createInstance_AccessibleBufferWidget
                   (_instance this) xterm ;;
      kept <- add this created ;;
      write_widget this kept
  | Some _ => ret tt
  end.

Definition show (this : AccessibleBufferContribution_t) : M unit :=
  widget <- read_widget this ;;
  opt_do widget Widget.show.

Definition createCommandQuickPick (this : AccessibleBufferContribution_t)
  : M (option QuickPick) :=
  widget <- read_widget this ;;
  match widget with
  | Some wd => Widget.createQuickPick wd
  | None => ret None
  end.

Definition navigateToCommand (this : AccessibleBufferContribution_t)
    (type : NavigationType) : M unit :=
  widget <- read_widget this ;;
  opt_do widget (fun wd => Widget.navigateToCommand wd type).
End AccessibleBufferContribution.

Arguments AccessibleBufferContribution.get : simpl never.

(** A run of [layout] calls on one contribution, one per element. *)
Fixpoint layouts (this : AccessibleBufferContribution_t) (xterms : list Xterm) : M unit :=
  match xterms with
  | [] => ret tt
  | x :: rest => AccessibleBufferContribution.layout this x ;; layouts this rest
  end.

(** ** [class TerminalAccessibilityHelpContribution extends Disposable] *)

Module TerminalAccessibilityHelpContribution.
(** The callback handed to [AccessibilityHelpAction.addImplementation].
    [instance?.xterm] is [undefined] when [instance] is, so the guard
    [if (!terminal) return] covers both absences; past it [instance]
    is known to be present. *)
Definition implementation : M unit :=
  instance <- ITerminalService.getActiveOrCreateInstance ;;
  ITerminalService.revealActiveTerminal ;;
  match instance with
  | None => ret tt
  | Some instance =>
      match xterm instance with
      | None => ret tt
      | Some terminal =>
          provider <- IInstantiationService.createInstance_TerminalAccessibleContentProvider
                        instance terminal ;;
          IAccessibleViewService.registerProvider provider ;;
          IAccessibleViewService.show "terminal"%string
      end
  end.

(** The arguments of [addImplementation(105, 'terminal', ..., TerminalContextKeys.focus)]. *)
Record Registration :=
  { priority : nat;
    name : string;
    handler : M unit;
    when : ContextKeyExpr }.

Definition registration : Registration :=
  {| priority := 105;
     name := "terminal"%string;
     handler := implementation;
     when := TerminalContextKeys_focus |}.
End TerminalAccessibilityHelpContribution.

(** ** The registered terminal actions *)

Module TerminalCommandId.
Inductive t :=
| FocusAccessibleBuffer
| NavigateAccessibleBuffer
| AccessibleBufferGoToNextCommand
| AccessibleBufferGoToPreviousCommand.
End TerminalCommandId.

Module KeybindingWeight.
Inductive t := WorkbenchContrib.
End KeybindingWeight.

(** [localize(key, message)]: the message, untranslated. *)
Definition localize (key message : string) : string := message.

Module Keybinding.
(** [weight] is a named base weight plus an offset. *)
Record t :=
  { primary : Chord;
    weight : KeybindingWeight.t * Z;
    when : ContextKeyExpr }.
End Keybinding.

Module Action.
Record Title := { value : string; original : string }.

Record t :=
  { id : TerminalCommandId.t;
    title : Title;
    precondition : ContextKeyExpr;
    keybinding : list Keybinding.t;
    run : M unit }.
End Action.

Definition FocusAccessibleBuffer : Action.t :=
  {| Action.id := TerminalCommandId.FocusAccessibleBuffer;
     Action.title :=
       {| Action.value := localize "workbench.action.terminal.focusAccessibleBuffer"
                            "Focus Accessible Buffer";
          Action.original := "Focus Accessible Buffer" |};
     Action.precondition :=
       ContextKeyExpr_.or [ Defined TerminalContextKeys_processSupported;
                            Defined TerminalContextKeys_terminalHasBeenCreated ];
     Action.keybinding :=
       [ {| Keybinding.primary :=
              {| modifiers := [KeyMod.Shift]; key := KeyCode.Tab |};
            Keybinding.weight := (KeybindingWeight.WorkbenchContrib, 0%Z);
            Keybinding.when :=
              ContextKeyExpr_.and
                [ Defined CONTEXT_ACCESSIBILITY_MODE_ENABLED;
                  Defined terminalTabFocusContextKey;
                  ContextKeyExpr_.negate TerminalContextKeys_accessibleBufferFocus ] |} ];
     Action.run :=
       instance <- ITerminalService.getActiveOrCreateInstance ;;
       ITerminalService.revealActiveTerminal ;;
       match instance with
       | None => ret tt
       | Some instance =>
           opt_do (AccessibleBufferContribution.get instance)
                  AccessibleBufferContribution.show
       end |}.

Definition NavigateAccessibleBuffer : Action.t :=
  {| Action.id := TerminalCommandId.NavigateAccessibleBuffer;
     Action.title :=
       {| Action.value := localize "workbench.action.terminal.navigateAccessibleBuffer"
                            "Navigate Accessible Buffer";
          Action.original := "Navigate Accessible Buffer" |};
     Action.precondition :=
       ContextKeyExpr_.or [ Defined TerminalContextKeys_processSupported;
                            Defined TerminalContextKeys_terminalHasBeenCreated ];
     Action.keybinding :=
       [ {| Keybinding.primary :=
              {| modifiers := [KeyMod.CtrlCmd; KeyMod.Shift]; key := KeyCode.KeyO |};
            Keybinding.weight := (KeybindingWeight.WorkbenchContrib, 2%Z);
            Keybinding.when := TerminalContextKeys_accessibleBufferFocus |} ];
     Action.run :=
       instance <- ITerminalService.getActiveOrCreateInstance ;;
       ITerminalService.revealActiveTerminal ;;
       match instance with
       | None => ret tt
       | Some instance =>
           quickPick <-
             match AccessibleBufferContribution.get instance with
             | Some contribution =>
                 AccessibleBufferContribution.createCommandQuickPick contribution
             | None => ret None
             end ;;
           opt_do quickPick QuickPick_show_
       end |}.

Definition AccessibleBufferGoToNextCommand : Action.t :=
  {| Action.id := TerminalCommandId.AccessibleBufferGoToNextCommand;
     Action.title :=
       {| Action.value := localize "workbench.action.terminal.accessibleBufferGoToNextCommand"
                            "Accessible Buffer Go to Next Command";
          Action.original := "Accessible Buffer Go to Next Command" |};
     Action.precondition :=
       ContextKeyExpr_.or [ Defined TerminalContextKeys_processSupported;
                            Defined TerminalContextKeys_terminalHasBeenCreated;
                            Defined TerminalContextKeys_accessibleBufferFocus ];
     Action.keybinding :=
       [ {| Keybinding.primary :=
              {| modifiers := [KeyMod.CtrlCmd]; key := KeyCode.DownArrow |};
            Keybinding.weight := (KeybindingWeight.WorkbenchContrib, 2%Z);
            Keybinding.when := TerminalContextKeys_accessibleBufferFocus |} ];
     Action.run :=
       instance <- ITerminalService.getActiveOrCreateInstance ;;
       ITerminalService.revealActiveTerminal ;;
       match instance with
       | None => ret tt
       | Some instance =>
           opt_do (AccessibleBufferContribution.get instance)
                  (fun contribution =>
                     AccessibleBufferContribution.navigateToCommand contribution Next)
       end |}.

Definition AccessibleBufferGoToPreviousCommand : Action.t :=
  {| Action.id := TerminalCommandId.AccessibleBufferGoToPreviousCommand;
     Action.title :=
       {| Action.value := localize "workbench.action.terminal.accessibleBufferGoToPreviousCommand"
                            "Accessible Buffer Go to Previous Command";
          Action.original := "Accessible Buffer Go to Previous Command" |};
     Action.precondition :=
       ContextKeyExpr_.and
         [ ContextKeyExpr_.or [ Defined TerminalContextKeys_processSupported;
                                Defined TerminalContextKeys_terminalHasBeenCreated ];
           Defined TerminalContextKeys_accessibleBufferFocus ];
     Action.keybinding :=
       [ {| Keybinding.primary :=
              {| modifiers := [KeyMod.CtrlCmd]; key := KeyCode.UpArrow |};
            Keybinding.weight := (KeybindingWeight.WorkbenchContrib, 2%Z);
            Keybinding.when := TerminalContextKeys_accessibleBufferFocus |} ];
     Action.run :=
       instance <- ITerminalService.getActiveOrCreateInstance ;;
       ITerminalService.revealActiveTerminal ;;
       match instance with
       | None => ret tt
       | Some instance =>
           opt_do (AccessibleBufferContribution.get instance)
                  (fun contribution =>
                     AccessibleBufferContribution.navigateToCommand contribution Previous)
       end |}.

(** What the four [registerTerminalAction] calls leave in the registry,
    in the order of the file. *)
Definition registeredActions : list Action.t :=
  [ FocusAccessibleBuffer;
    NavigateAccessibleBuffer;
    AccessibleBufferGoToNextCommand;
    AccessibleBufferGoToPreviousCommand ].

(** The five handlers of the file: the four action bodies and the
    accessibility-help implementation. *)
Definition registeredHandlers : list (M unit) :=
  map Action.run registeredActions
    ++ [TerminalAccessibilityHelpContribution.implementation].

(** ** Vocabulary of the statements *)

(** The world once a handler has resolved the active terminal and
    revealed it: both calls logged, nothing else touched. *)
Definition prologue (w : World) : World :=
  log_call TerminalService_revealActiveTerminal
    (log_call TerminalService_getActiveOrCreateInstance w).

(** The contribution method each action forwards to, with what the
    action does with its result. *)
Definition delegation (id : TerminalCommandId.t)
    (contribution : AccessibleBufferContribution_t) : M unit :=
  match id with
  | TerminalCommandId.FocusAccessibleBuffer =>
      AccessibleBufferContribution.show contribution
  | TerminalCommandId.NavigateAccessibleBuffer =>
      quickPick <- AccessibleBufferContribution.createCommandQuickPick contribution ;;
      opt_do quickPick QuickPick_show_
  | TerminalCommandId.AccessibleBufferGoToNextCommand =>
      AccessibleBufferContribution.navigateToCommand contribution Next
  | TerminalCommandId.AccessibleBufferGoToPreviousCommand =>
      AccessibleBufferContribution.navigateToCommand contribution Previous
  end.

(** What a delegation adds to the log, by the state of the widget field. *)
Definition delegationCalls (id : TerminalCommandId.t)
    (contribution : AccessibleBufferContribution_t) (w : World) : list Event :=
  match accessibleBufferWidget w !! contributionId contribution with
  | None => []
  | Some widget =>
      match id with
      | TerminalCommandId.FocusAccessibleBuffer => [Widget_show widget]
      | TerminalCommandId.NavigateAccessibleBuffer =>
          Widget_createQuickPick widget
            :: match quickPickOf w widget with
               | Some q => [QuickPick_show q]
               | None => []
               end
      | TerminalCommandId.AccessibleBufferGoToNextCommand =>
          [Widget_navigateToCommand widget Next]
      | TerminalCommandId.AccessibleBufferGoToPreviousCommand =>
          [Widget_navigateToCommand widget Previous]
      end
  end.

(** Number of [AccessibleBufferWidget]s constructed so far. *)
Definition widgetsConstructed (w : World) : nat :=
  length (filter (fun e => is_widget_construction e = true) (calls w)).

(** The chords an action is bound to, and the truth value of each
    binding's [when] clause in a context. *)
Definition boundChords (a : Action.t) : list Chord :=
  map Keybinding.primary (Action.keybinding a).

Definition bindingConditions (ctx : Context) (a : Action.t) : list bool :=
  map (fun kb => evaluate ctx (Keybinding.when kb)) (Action.keybinding a).

(** ** Sample worlds *)

Definition sampleContribution : AccessibleBufferContribution_t :=
  {| contributionId := 0; _instance := 1 |}.

Definition sampleInstance : ITerminalInstance :=
  {| instanceId := 1;
     xterm := Some 7;
     contributions := {[ AccessibleBufferContribution.ID := sampleContribution ]} |}.

Definition sampleInstanceWithoutXterm : ITerminalInstance :=
  {| instanceId := 2; xterm := None; contributions := ∅ |}.

Definition worldWith (active : option ITerminalInstance) : World :=
  {| activeInstance := active;
     quickPickOf := fun widget => Some (widgetId widget + 40);
     accessibleBufferWidget := ∅;
     toDispose := ∅;
     nextWidgetId := 0;
     calls := [] |}.

(** No terminal can be obtained. *)
Definition worldWithoutTerminal : World := worldWith None.

(** A terminal whose contribution has not been laid out yet. *)
Definition worldBeforeLayout : World := worldWith (Some sampleInstance).

(** The same terminal after [layout] has run once. *)
Definition worldAfterLayout : World :=
  exec (AccessibleBufferContribution.layout sampleContribution 7) worldBeforeLayout.

Definition allKeysSet : Context := fun _ => true.

Definition onlyProcessSupported : Context :=
  fun k => match k with TerminalContextKeys_processSupported => true | _ => false end.

(** ** Histories of the contribution and the handlers *)

(** The action registered for a command id. *)
Definition actionOf (id : TerminalCommandId.t) : Action.t :=
  match id with
  | TerminalCommandId.FocusAccessibleBuffer => FocusAccessibleBuffer
  | TerminalCommandId.NavigateAccessibleBuffer => NavigateAccessibleBuffer
  | TerminalCommandId.AccessibleBufferGoToNextCommand =>
      AccessibleBufferGoToNextCommand
  | TerminalCommandId.AccessibleBufferGoToPreviousCommand =>
      AccessibleBufferGoToPreviousCommand
  end.

(** One thing the host can make this file do: lay a contribution out,
    run a registered action, or run the accessibility-help
    implementation. *)
Inductive Op :=
| OpLayout (this : AccessibleBufferContribution_t) (xterm : Xterm)
| OpAction (id : TerminalCommandId.t)
| OpHelp.

Definition runOp (op : Op) : M unit :=
  match op with
  | OpLayout this xterm => AccessibleBufferContribution.layout this xterm
  | OpAction id => Action.run (actionOf id)
  | OpHelp => TerminalAccessibilityHelpContribution.implementation
  end.

Fixpoint runOps (ops : list Op) : M unit :=
  match ops with
  | [] => ret tt
  | op :: rest => runOp op ;; runOps rest
  end.

(** [n] runs of a handler, one after the other. *)
Fixpoint times (n : nat) (m : M unit) : M unit :=
  match n with
  | O => ret tt
  | S n' => m ;; times n' m
  end.

(** Number of logged calls of a kind. *)
Definition countCalls (kind : Event -> bool) (w : World) : nat :=
  length (filter (fun e => kind e = true) (calls w)).

Definition is_resolve (e : Event) : bool :=
  match e with
  | TerminalService_getActiveOrCreateInstance => true
  | _ => false
  end.

Definition is_reveal (e : Event) : bool :=
  match e with
  | TerminalService_revealActiveTerminal => true
  | _ => false
  end.

Definition is_provider_registration (e : Event) : bool :=
  match e with
  | AccessibleViewService_registerProvider _ => true
  | _ => false
  end.

(** The calls only the accessibility-help implementation makes. *)
Definition is_help_call (e : Event) : bool :=
  match e with
  | CreateInstance_TerminalAccessibleContentProvider _
  | AccessibleViewService_registerProvider _
  | AccessibleViewService_show _ => true
  | _ => false
  end.

(** Two worlds that differ at most in their log. *)
Definition sameObjects (w' w : World) : Prop :=
  activeInstance w' = activeInstance w
  /\ quickPickOf w' = quickPickOf w
  /\ accessibleBufferWidget w' = accessibleBufferWidget w
  /\ toDispose w' = toDispose w
  /\ nextWidgetId w' = nextWidgetId w.

(** Every widget held by a contribution was made by an earlier
    [createInstance]. *)
Definition widgetsAllocated (w : World) : Prop :=
  forall (c : nat) (widget : AccessibleBufferWidget),
    accessibleBufferWidget w !! c = Some widget ->
    widgetId widget < nextWidgetId w.

(** No two contributions hold the same widget. *)
Definition widgetsDistinct (w : World) : Prop :=
  forall (c1 c2 : nat) (widget1 widget2 : AccessibleBufferWidget),
    c1 <> c2 ->
    accessibleBufferWidget w !! c1 = Some widget1 ->
    accessibleBufferWidget w !! c2 = Some widget2 ->
    widgetId widget1 <> widgetId widget2.

(** A second contribution, on another terminal, for the samples. *)
Definition otherContribution : AccessibleBufferContribution_t :=
  {| contributionId := 5; _instance := 2 |}.

(** Buffer focused, but neither process support nor a created terminal. *)
Definition onlyBufferFocused : Context :=
  fun k => match k with TerminalContextKeys_accessibleBufferFocus => true | _ => false end.

(** The widget the sample contribution gets from its first layout, and
    a world in which that widget hands back no quick pick. *)
Definition sampleWidget : AccessibleBufferWidget :=
  {| widgetId := 0; widgetInstance := 1; widgetXterm := 7 |}.

Definition worldWithoutQuickPick : World :=
  {| activeInstance := Some sampleInstance;
     quickPickOf := fun _ => None;
     accessibleBufferWidget := {[ 0 := sampleWidget ]};
     toDispose := {[ 0 := [sampleWidget] ]};
     nextWidgetId := 1;
     calls := [] |}.

(** Accessibility mode on and tab focus set, outside the accessible
    buffer. *)
Definition onlyFocusBinding : Context :=
  fun k => match k with
           | CONTEXT_ACCESSIBILITY_MODE_ENABLED | terminalTabFocusContextKey => true
           | _ => false
           end.

(** * Properties *)

(** ** Shape of the handlers *)

Lemma exec_bind {A B} (m : M A) (k : A -> M B) (w : World) :
  exec (bind m k) w = exec (k (result m w)) (exec m w).
Proof. unfold exec, result, bind. destruct (m w). reflexivity. Qed.

Lemma calls_log_call e w : calls (log_call e w) = calls w ++ [e].
Proof. reflexivity. Qed.

Lemma calls_prologue w :
  calls (prologue w) =
  calls w ++ [TerminalService_getActiveOrCreateInstance;
              TerminalService_revealActiveTerminal].
Proof. unfold prologue. rewrite !calls_log_call, <- app_assoc. reflexivity. Qed.

(** Every action body is the prologue followed, when an instance was
    obtained, by the optional-chained call on its contribution. *)
Lemma run_factor (a : Action.t) (w : World) :
  In a registeredActions ->
  Action.run a w =
  match activeInstance w with
  | None => (tt, prologue w)
  | Some instance =>
      opt_do (AccessibleBufferContribution.get instance)
             (delegation (Action.id a)) (prologue w)
  end.
Proof.
  intros [<-|[<-|[<-|[<-|[]]]]]; cbn;
    destruct (activeInstance w) as [instance|]; try reflexivity;
    cbn; destruct (AccessibleBufferContribution.get instance); reflexivity.
Qed.

Lemma delegation_calls id contribution w :
  calls (exec (delegation id contribution) w) =
  calls w ++ delegationCalls id contribution w.
Proof.
  unfold delegationCalls, exec, delegation,
    AccessibleBufferContribution.show,
    AccessibleBufferContribution.createCommandQuickPick,
    AccessibleBufferContribution.navigateToCommand,
    AccessibleBufferContribution.read_widget, bind.
  destruct id; cbv beta iota;
    destruct (accessibleBufferWidget w !! contributionId contribution) as [widget|];
    cbn; rewrite ?app_nil_r; try reflexivity.
  destruct (quickPickOf w widget); cbn; rewrite <- ?app_assoc; reflexivity.
Qed.

Lemma delegationCalls_are_delegations id contribution w :
  Forall (fun e => is_delegation e = true) (delegationCalls id contribution w).
Proof.
  unfold delegationCalls.
  destruct (accessibleBufferWidget w !! contributionId contribution) as [widget|];
    [|constructor].
  destruct id; cbn; try (repeat constructor).
  destruct (quickPickOf w widget); repeat constructor.
Qed.

Lemma log_grows_neq (w w' : World) (es : list Event) :
  calls w' = calls w ++ es -> es <> [] -> w' <> w.
Proof.
  intros Hcalls Hne ->.
  apply (f_equal (@length Event)) in Hcalls.
  rewrite length_app in Hcalls.
  destruct es; [congruence | cbn in Hcalls; lia].
Qed.

(** C1.  In each of the four registered actions, when resolving the
    active terminal yields no instance, the body returns normally after
    the two terminal-service calls: the world it leaves is the prologue
    of the one it started in, so no widget was shown, no quick pick was
    made or shown, no navigation happened, and no delegation call is in
    the log. *)
Theorem no_instance_no_delegation (a : Action.t) (w : World) :
  In a registeredActions ->
  activeInstance w = None ->
  Action.run a w = (tt, prologue w)
  /\ filter (fun e => is_delegation e = true) (calls (exec (Action.run a) w))
     = filter (fun e => is_delegation e = true) (calls w)
  /\ accessibleBufferWidget (exec (Action.run a) w) = accessibleBufferWidget w.
Proof.
  intros Hin Hnone.
  unfold exec. rewrite (run_factor a w Hin), Hnone. cbn [snd].
  split; [reflexivity|]. split; [|reflexivity].
  rewrite calls_prologue, filter_app. cbn. apply app_nil_r.
Qed.

Lemma no_instance_no_delegation_witness :
  In AccessibleBufferGoToNextCommand registeredActions
  /\ activeInstance worldWithoutTerminal = None
  /\ Action.run AccessibleBufferGoToNextCommand worldWithoutTerminal
     = (tt, prologue worldWithoutTerminal).
Proof.
  split; [cbn; tauto|]. split; [reflexivity|].
  apply (no_instance_no_delegation AccessibleBufferGoToNextCommand worldWithoutTerminal);
    [cbn; tauto | reflexivity].
Defined.

(** The calls of an action body: the two service calls, then only
    delegation calls. *)
Lemma action_calls_shape (a : Action.t) (w : World) :
  In a registeredActions ->
  exists rest,
    calls (exec (Action.run a) w)
    = calls w ++ TerminalService_getActiveOrCreateInstance
              :: TerminalService_revealActiveTerminal :: rest
    /\ Forall (fun e => is_delegation e = true) rest.
Proof.
  intros Hin. unfold exec. rewrite (run_factor a w Hin).
  destruct (activeInstance w) as [instance|].
  - destruct (AccessibleBufferContribution.get instance) as [contribution|]; cbn [opt_do].
    + exists (delegationCalls (Action.id a) contribution (prologue w)). split.
      * change (snd (delegation (Action.id a) contribution (prologue w)))
          with (exec (delegation (Action.id a) contribution) (prologue w)).
        rewrite delegation_calls, calls_prologue, <- app_assoc. reflexivity.
      * apply delegationCalls_are_delegations.
    + exists []. split; [apply calls_prologue | constructor].
  - exists []. split; [apply calls_prologue | constructor].
Qed.

(** C2.  In each of the four registered actions the calls made are, in
    order: [getActiveOrCreateInstance], then [revealActiveTerminal],
    then only calls of the delegation; and when an instance with the
    contribution is obtained, the contribution's method runs in the
    world in which both service calls have already been made. *)
Theorem reveal_precedes_delegation (a : Action.t) (w : World) :
  In a registeredActions ->
  (exists rest,
      calls (exec (Action.run a) w)
      = calls w ++ TerminalService_getActiveOrCreateInstance
                :: TerminalService_revealActiveTerminal :: rest
      /\ Forall (fun e => is_delegation e = true) rest)
  /\ (forall instance contribution,
         activeInstance w = Some instance ->
         AccessibleBufferContribution.get instance = Some contribution ->
         Action.run a w = delegation (Action.id a) contribution (prologue w)).
Proof.
  intros Hin. split.
  - exact (action_calls_shape a w Hin).
  - intros instance contribution Hactive Hget.
    rewrite (run_factor a w Hin), Hactive, Hget. reflexivity.
Qed.

Lemma reveal_precedes_delegation_witness :
  In FocusAccessibleBuffer registeredActions
  /\ calls (exec (Action.run FocusAccessibleBuffer) worldAfterLayout)
     = calls worldAfterLayout
       ++ [TerminalService_getActiveOrCreateInstance;
           TerminalService_revealActiveTerminal;
           Widget_show {| widgetId := 0; widgetInstance := 1; widgetXterm := 7 |}].
Proof.
  split; [cbn; tauto|].
  destruct (reveal_precedes_delegation FocusAccessibleBuffer worldAfterLayout)
    as [_ Hrun]; [cbn; tauto|].
  unfold exec. rewrite (Hrun sampleInstance sampleContribution); reflexivity.
Defined.

(** ** The lazily constructed widget *)

Lemma layout_existing this x w widget :
  accessibleBufferWidget w !! contributionId this = Some widget ->
  AccessibleBufferContribution.layout this x w = (tt, w).
Proof.
  intros Hsome.
  unfold AccessibleBufferContribution.layout,
    AccessibleBufferContribution.read_widget, bind.
  rewrite Hsome. reflexivity.
Qed.

Lemma layout_fresh this x w :
  accessibleBufferWidget w !! contributionId this = None ->
  let widget := {| widgetId := nextWidgetId w;
                   widgetInstance := _instance this;
                   widgetXterm := x |} in
  AccessibleBufferContribution.layout this x w =
  (tt,
   {| activeInstance := activeInstance w;
      quickPickOf := quickPickOf w;
      accessibleBufferWidget :=
        <[contributionId this := widget]> (accessibleBufferWidget w);
      toDispose :=
        <[contributionId this :=
            default [] (toDispose w !! contributionId this) ++ [widget]]>
          (toDispose w);
      nextWidgetId := S (nextWidgetId w);
      calls := calls w ++ [CreateInstance_AccessibleBufferWidget widget] |}).
Proof.
  intros Hnone.
  unfold AccessibleBufferContribution.layout,
    AccessibleBufferContribution.read_widget, bind.
  rewrite Hnone. reflexivity.
Qed.

Lemma layouts_existing this xs w widget :
  accessibleBufferWidget w !! contributionId this = Some widget ->
  layouts this xs w = (tt, w).
Proof.
  intros Hsome. induction xs as [|x xs IH]; [reflexivity|].
  cbn [layouts]. unfold bind.
  rewrite (layout_existing this x w widget Hsome). exact IH.
Qed.

(** C3.  For every contribution, every world and every run of [layout]
    calls: after the first call the widget field is set (to the widget
    that was there already, or else to a new one made from this call's
    arguments); every later call leaves the whole world, and so the
    widget, as the first call left it; and the run constructs one widget
    if the field was unset at the start and none otherwise, hence at
    most one in any run, the empty one included. *)
Theorem widget_constructed_at_most_once
    (this : AccessibleBufferContribution_t) (w : World) :
  (forall (x : Xterm) (later : list Xterm),
      let first := exec (AccessibleBufferContribution.layout this x) w in
      let final := exec (layouts this later) first in
      accessibleBufferWidget first !! contributionId this
      = Some (match accessibleBufferWidget w !! contributionId this with
              | Some widget => widget
              | None => {| widgetId := nextWidgetId w;
                           widgetInstance := _instance this;
                           widgetXterm := x |}
              end)
      /\ final = first
      /\ widgetsConstructed final
         = widgetsConstructed w
           + match accessibleBufferWidget w !! contributionId this with
             | Some _ => 0
             | None => 1
             end)
  /\ (forall xs : list Xterm,
         widgetsConstructed (exec (layouts this xs) w) <= widgetsConstructed w + 1).
Proof.
  assert (Hfirst : forall x later,
             let first := exec (AccessibleBufferContribution.layout this x) w in
             let final := exec (layouts this later) first in
             accessibleBufferWidget first !! contributionId this
             = Some (match accessibleBufferWidget w !! contributionId this with
                     | Some widget => widget
                     | None => {| widgetId := nextWidgetId w;
                                  widgetInstance := _instance this;
                                  widgetXterm := x |}
                     end)
             /\ final = first
             /\ widgetsConstructed final
                = widgetsConstructed w
                  + match accessibleBufferWidget w !! contributionId this with
                    | Some _ => 0
                    | None => 1
                    end).
  { intros x later first final.
    assert (Hset : accessibleBufferWidget first !! contributionId this
                   = Some (match accessibleBufferWidget w !! contributionId this with
                           | Some widget => widget
                           | None => {| widgetId := nextWidgetId w;
                                        widgetInstance := _instance this;
                                        widgetXterm := x |}
                           end)).
    { subst first. unfold exec.
      destruct (accessibleBufferWidget w !! contributionId this) as [widget|] eqn:Hw.
      - rewrite (layout_existing this x w widget Hw). exact Hw.
      - rewrite (layout_fresh this x w Hw). cbn. apply lookup_insert_eq. }
    assert (Hsame : final = first).
    { subst final. unfold exec at 1.
      rewrite (layouts_existing this later first _ Hset). reflexivity. }
    split; [exact Hset|]. split; [exact Hsame|].
    rewrite Hsame. subst first. unfold exec, widgetsConstructed.
    destruct (accessibleBufferWidget w !! contributionId this) as [widget|] eqn:Hw.
    - rewrite (layout_existing this x w widget Hw). cbn. lia.
    - rewrite (layout_fresh this x w Hw). cbn [snd calls].
      rewrite filter_app, length_app. reflexivity. }
  split; [exact Hfirst|].
  intros [|x later].
  - cbn. lia.
  - cbn [layouts]. rewrite exec_bind.
    destruct (Hfirst x later) as (_ & _ & Hcount). cbv zeta in Hcount.
    rewrite Hcount.
    destruct (accessibleBufferWidget w !! contributionId this); lia.
Qed.

(** ** Optional-chained delegation to the widget *)

(** C8.  [show], [createCommandQuickPick] and [navigateToCommand] only
    forward to the widget: when the widget field is set each one is the
    widget's method, result included; when it is unset (as before any
    [layout]) [show] and [navigateToCommand] return leaving the world
    untouched and [createCommandQuickPick] returns [undefined] leaving
    it untouched. *)
Theorem contribution_methods_delegate
    (this : AccessibleBufferContribution_t) (w : World) :
  (forall widget,
      accessibleBufferWidget w !! contributionId this = Some widget ->
      AccessibleBufferContribution.show this w = Widget.show widget w
      /\ AccessibleBufferContribution.createCommandQuickPick this w
         = Widget.createQuickPick widget w
      /\ forall type,
          AccessibleBufferContribution.navigateToCommand this type w
          = Widget.navigateToCommand widget type w)
  /\ (accessibleBufferWidget w !! contributionId this = None ->
      AccessibleBufferContribution.show this w = (tt, w)
      /\ AccessibleBufferContribution.createCommandQuickPick this w = (None, w)
      /\ forall type,
          AccessibleBufferContribution.navigateToCommand this type w = (tt, w)).
Proof.
  unfold AccessibleBufferContribution.show,
    AccessibleBufferContribution.createCommandQuickPick,
    AccessibleBufferContribution.navigateToCommand,
    AccessibleBufferContribution.read_widget, bind.
  split.
  - intros widget ->. repeat split.
  - intros ->. repeat split.
Qed.

Lemma contribution_methods_delegate_witness :
  (accessibleBufferWidget worldAfterLayout !! contributionId sampleContribution
   = Some {| widgetId := 0; widgetInstance := 1; widgetXterm := 7 |}
   /\ AccessibleBufferContribution.createCommandQuickPick sampleContribution
        worldAfterLayout
      = (Some 40,
         log_call (Widget_createQuickPick
                     {| widgetId := 0; widgetInstance := 1; widgetXterm := 7 |})
           worldAfterLayout))
  /\ (accessibleBufferWidget worldBeforeLayout !! contributionId sampleContribution
      = None
      /\ AccessibleBufferContribution.createCommandQuickPick sampleContribution
           worldBeforeLayout
         = (None, worldBeforeLayout)).
Proof.
  split.
  - split; [reflexivity|].
    destruct (contribution_methods_delegate sampleContribution worldAfterLayout)
      as [Hset _].
    destruct (Hset {| widgetId := 0; widgetInstance := 1; widgetXterm := 7 |})
      as (_ & Hpick & _); [reflexivity|].
    rewrite Hpick. reflexivity.
  - split; [reflexivity|].
    destruct (contribution_methods_delegate sampleContribution worldBeforeLayout)
      as [_ Hunset].
    destruct Hunset as (_ & Hpick & _); [reflexivity|].
    exact Hpick.
Defined.

(** ** The accessibility-help implementation *)

Lemma help_without_xterm (w : World) :
  activeInstance w ≫= xterm = None ->
  TerminalAccessibilityHelpContribution.implementation w = (tt, prologue w).
Proof.
  intros Hnone.
  unfold TerminalAccessibilityHelpContribution.implementation.
  cbn. destruct (activeInstance w) as [instance|]; [|reflexivity].
  cbn in Hnone. rewrite Hnone. reflexivity.
Qed.

(** C7.  The implementation registered under the name ['terminal']
    resolves the active terminal and reveals it; then, if the instance
    has an xterm, it makes a [TerminalAccessibleContentProvider] for
    that instance and xterm, registers it with the accessible-view
    service and shows the ['terminal'] view, in this order and with
    nothing else; if there is no xterm (or no instance) it returns right
    after revealing, with no provider registered and no view shown. *)
Theorem help_implementation_behaviour (w : World) :
  TerminalAccessibilityHelpContribution.handler
    TerminalAccessibilityHelpContribution.registration
  = TerminalAccessibilityHelpContribution.implementation
  /\ TerminalAccessibilityHelpContribution.name
       TerminalAccessibilityHelpContribution.registration = "terminal"%string
  /\ (forall instance terminal,
         activeInstance w = Some instance ->
         xterm instance = Some terminal ->
         let provider := {| providerInstance := instanceId instance;
                            providerXterm := terminal |} in
         calls (exec TerminalAccessibilityHelpContribution.implementation w)
         = calls w
           ++ [TerminalService_getActiveOrCreateInstance;
               TerminalService_revealActiveTerminal;
               CreateInstance_TerminalAccessibleContentProvider provider;
               AccessibleViewService_registerProvider provider;
               AccessibleViewService_show "terminal"])
  /\ (activeInstance w ≫= xterm = None ->
      TerminalAccessibilityHelpContribution.implementation w = (tt, prologue w)
      /\ calls (exec TerminalAccessibilityHelpContribution.implementation w)
         = calls w
           ++ [TerminalService_getActiveOrCreateInstance;
               TerminalService_revealActiveTerminal]).
Proof.
  split; [reflexivity|]. split; [reflexivity|]. split.
  - intros instance terminal Hactive Hxterm provider.
    unfold exec, TerminalAccessibilityHelpContribution.implementation.
    cbn. rewrite Hactive, Hxterm. cbn.
    rewrite <- !app_assoc. reflexivity.
  - intros Hnone. unfold exec.
    rewrite (help_without_xterm w Hnone). split; [reflexivity|].
    apply calls_prologue.
Qed.

Lemma help_implementation_behaviour_witness :
  (activeInstance worldBeforeLayout = Some sampleInstance
   /\ xterm sampleInstance = Some 7
   /\ calls (exec TerminalAccessibilityHelpContribution.implementation
               worldBeforeLayout)
      = [TerminalService_getActiveOrCreateInstance;
         TerminalService_revealActiveTerminal;
         CreateInstance_TerminalAccessibleContentProvider
           {| providerInstance := 1; providerXterm := 7 |};
         AccessibleViewService_registerProvider
           {| providerInstance := 1; providerXterm := 7 |};
         AccessibleViewService_show "terminal"])
  /\ (activeInstance (worldWith (Some sampleInstanceWithoutXterm)) ≫= xterm = None
      /\ calls (exec TerminalAccessibilityHelpContribution.implementation
                  (worldWith (Some sampleInstanceWithoutXterm)))
         = [TerminalService_getActiveOrCreateInstance;
            TerminalService_revealActiveTerminal]).
Proof.
  split.
  - split; [reflexivity|]. split; [reflexivity|].
    destruct (help_implementation_behaviour worldBeforeLayout)
      as (_ & _ & Hxterm & _).
    apply (Hxterm sampleInstance 7); reflexivity.
  - split; [reflexivity|].
    destruct (help_implementation_behaviour
                (worldWith (Some sampleInstanceWithoutXterm)))
      as (_ & _ & _ & Hnone).
    destruct Hnone as [_ Hcalls]; [reflexivity|].
    exact Hcalls.
Defined.

(** ** Revealing on the failure path *)

(** C9.  Each of the five handlers logs [revealActiveTerminal] right
    after [getActiveOrCreateInstance] whatever the world; in a run that
    obtains no instance (and, for the help implementation, also in a run
    whose instance has no xterm) these two calls are all the handler
    does, so the reveal has happened and the world it leaves is not the
    one it started in. *)
Theorem reveal_before_absence_check (h : M unit) (w : World) :
  In h registeredHandlers ->
  (exists rest,
      calls (exec h w)
      = calls w ++ TerminalService_getActiveOrCreateInstance
                :: TerminalService_revealActiveTerminal :: rest)
  /\ (activeInstance w = None ->
      h w = (tt, prologue w)
      /\ In TerminalService_revealActiveTerminal (calls (exec h w))
      /\ exec h w <> w)
  /\ (h = TerminalAccessibilityHelpContribution.implementation ->
      activeInstance w ≫= xterm = None ->
      h w = (tt, prologue w)
      /\ In TerminalService_revealActiveTerminal (calls (exec h w))
      /\ exec h w <> w).
Proof.
  assert (Hprologue : forall h' : M unit,
             h' w = (tt, prologue w) ->
             h' w = (tt, prologue w)
             /\ In TerminalService_revealActiveTerminal (calls (exec h' w))
             /\ exec h' w <> w).
  { intros h' Heq. split; [exact Heq|]. unfold exec. rewrite Heq. cbn [snd]. split.
    - rewrite calls_prologue. apply in_or_app. right. cbn. tauto.
    - apply (log_grows_neq w (prologue w) _ (calls_prologue w)). discriminate. }
  intros Hin. split; [|split].
  - unfold registeredHandlers in Hin. apply in_app_or in Hin as [Hin|Hin].
    + apply in_map_iff in Hin as (a & <- & Hin).
      destruct (action_calls_shape a w Hin) as (rest & Hcalls & _).
      exists rest. exact Hcalls.
    + destruct Hin as [<-|[]].
      unfold exec, TerminalAccessibilityHelpContribution.implementation. cbn.
      destruct (activeInstance w) as [instance|]; cbn;
        [destruct (xterm instance) as [terminal|]; cbn|];
        rewrite <- ?app_assoc; eexists; reflexivity.
  - intros Hnone. apply Hprologue.
    unfold registeredHandlers in Hin. apply in_app_or in Hin as [Hin|Hin].
    + apply in_map_iff in Hin as (a & <- & Hin).
      rewrite (run_factor a w Hin), Hnone. reflexivity.
    + destruct Hin as [<-|[]]. apply help_without_xterm. rewrite Hnone. reflexivity.
  - intros -> Hnone. apply Hprologue. apply help_without_xterm. exact Hnone.
Qed.

Lemma reveal_before_absence_check_witness :
  In TerminalAccessibilityHelpContribution.implementation registeredHandlers
  /\ (activeInstance worldWithoutTerminal = None
      /\ In TerminalService_revealActiveTerminal
           (calls (exec TerminalAccessibilityHelpContribution.implementation
                     worldWithoutTerminal)))
  /\ (activeInstance (worldWith (Some sampleInstanceWithoutXterm)) ≫= xterm = None
      /\ TerminalAccessibilityHelpContribution.implementation
           (worldWith (Some sampleInstanceWithoutXterm))
         = (tt, prologue (worldWith (Some sampleInstanceWithoutXterm)))).
Proof.
  assert (Hin : In TerminalAccessibilityHelpContribution.implementation
                  registeredHandlers) by (cbn; tauto).
  split; [exact Hin|]. split.
  - split; [reflexivity|].
    destruct (reveal_before_absence_check
                TerminalAccessibilityHelpContribution.implementation
                worldWithoutTerminal Hin) as (_ & Hnone & _).
    destruct Hnone as (_ & Hreveal & _); [reflexivity|].
    exact Hreveal.
  - split; [reflexivity|].
    destruct (reveal_before_absence_check
                TerminalAccessibilityHelpContribution.implementation
                (worldWith (Some sampleInstanceWithoutXterm)) Hin)
      as (_ & _ & Hhelp).
    destruct Hhelp as (Heq & _); [reflexivity | reflexivity |].
    exact Heq.
Defined.

(** ** Bindings and preconditions of the actions *)

(** C10.  The precondition of [AccessibleBufferGoToNextCommand] is the
    disjunction of [processSupported], [terminalHasBeenCreated] and
    [accessibleBufferFocus]; that of
    [AccessibleBufferGoToPreviousCommand] is the conjunction of
    ([processSupported] or [terminalHasBeenCreated]) with
    [accessibleBufferFocus]; and a context with the process supported
    and the accessible buffer not focused satisfies the first and not
    the second. *)
Theorem navigation_preconditions_asymmetric :
  (forall ctx : Context,
      evaluate ctx (Action.precondition AccessibleBufferGoToNextCommand)
      = ctx TerminalContextKeys_processSupported
        || ctx TerminalContextKeys_terminalHasBeenCreated
        || ctx TerminalContextKeys_accessibleBufferFocus)
  /\ (forall ctx : Context,
         evaluate ctx (Action.precondition AccessibleBufferGoToPreviousCommand)
         = (ctx TerminalContextKeys_processSupported
            || ctx TerminalContextKeys_terminalHasBeenCreated)
           && ctx TerminalContextKeys_accessibleBufferFocus)
  /\ (exists ctx : Context,
         ctx TerminalContextKeys_processSupported = true
         /\ ctx TerminalContextKeys_accessibleBufferFocus = false
         /\ evaluate ctx (Action.precondition AccessibleBufferGoToNextCommand) = true
         /\ evaluate ctx (Action.precondition AccessibleBufferGoToPreviousCommand)
            = false).
Proof.
  split; [|split].
  - intros ctx. cbn.
    destruct (ctx TerminalContextKeys_processSupported),
      (ctx TerminalContextKeys_terminalHasBeenCreated),
      (ctx TerminalContextKeys_accessibleBufferFocus); reflexivity.
  - intros ctx. cbn.
    destruct (ctx TerminalContextKeys_processSupported),
      (ctx TerminalContextKeys_terminalHasBeenCreated),
      (ctx TerminalContextKeys_accessibleBufferFocus); reflexivity.
  - exists onlyProcessSupported. repeat split.
Qed.

(** An action run on an instance that carries the contribution: the
    body is the delegation after the prologue, and its calls are the two
    service calls followed by those of the delegation. *)
Lemma run_with_contribution (a : Action.t) (w : World) instance contribution :
  In a registeredActions ->
  activeInstance w = Some instance ->
  AccessibleBufferContribution.get instance = Some contribution ->
  Action.run a w = delegation (Action.id a) contribution (prologue w)
  /\ calls (exec (Action.run a) w)
     = calls w
       ++ [TerminalService_getActiveOrCreateInstance;
           TerminalService_revealActiveTerminal]
       ++ delegationCalls (Action.id a) contribution w.
Proof.
  intros Hin Hactive Hget.
  assert (Hrun : Action.run a w = delegation (Action.id a) contribution (prologue w)).
  { rewrite (run_factor a w Hin), Hactive, Hget. reflexivity. }
  split; [exact Hrun|].
  unfold exec. rewrite Hrun.
  change (snd (delegation (Action.id a) contribution (prologue w)))
    with (exec (delegation (Action.id a) contribution) (prologue w)).
  rewrite delegation_calls, calls_prologue, <- app_assoc. reflexivity.
Qed.

(** C4, as the code has it.  [FocusAccessibleBuffer] has one binding,
    Shift+Tab, whose [when] clause holds exactly when accessibility mode
    is on, the terminal tab-focus key is set and the accessible buffer
    is not focused.  Run on an instance that carries the contribution,
    the body is the prologue (resolve, reveal) followed by the
    contribution's [show]; when the contribution's widget is set the
    calls are resolve, reveal, then the widget's [show]. *)
Theorem focus_accessible_buffer_action (w : World) :
  boundChords FocusAccessibleBuffer
  = [ {| modifiers := [KeyMod.Shift]; key := KeyCode.Tab |} ]
  /\ (forall ctx : Context,
         bindingConditions ctx FocusAccessibleBuffer
         = [ ctx CONTEXT_ACCESSIBILITY_MODE_ENABLED
             && ctx terminalTabFocusContextKey
             && negb (ctx TerminalContextKeys_accessibleBufferFocus) ])
  /\ (forall instance contribution,
         activeInstance w = Some instance ->
         AccessibleBufferContribution.get instance = Some contribution ->
         Action.run FocusAccessibleBuffer w
         = AccessibleBufferContribution.show contribution (prologue w)
         /\ forall widget,
             accessibleBufferWidget w !! contributionId contribution = Some widget ->
             calls (exec (Action.run FocusAccessibleBuffer) w)
             = calls w
               ++ [TerminalService_getActiveOrCreateInstance;
                   TerminalService_revealActiveTerminal;
                   Widget_show widget]).
Proof.
  split; [reflexivity|]. split.
  - intros ctx. cbn.
    destruct (ctx CONTEXT_ACCESSIBILITY_MODE_ENABLED),
      (ctx terminalTabFocusContextKey),
      (ctx TerminalContextKeys_accessibleBufferFocus); reflexivity.
  - intros instance contribution Hactive Hget.
    destruct (run_with_contribution FocusAccessibleBuffer w instance contribution)
      as [Hrun Hcalls]; [cbn; tauto | exact Hactive | exact Hget |].
    split; [exact Hrun|].
    intros widget Hwidget. rewrite Hcalls.
    unfold delegationCalls. rewrite Hwidget. reflexivity.
Qed.

Lemma focus_accessible_buffer_action_witness :
  activeInstance worldAfterLayout = Some sampleInstance
  /\ AccessibleBufferContribution.get sampleInstance = Some sampleContribution
  /\ accessibleBufferWidget worldAfterLayout !! contributionId sampleContribution
     = Some {| widgetId := 0; widgetInstance := 1; widgetXterm := 7 |}
  /\ calls (exec (Action.run FocusAccessibleBuffer) worldAfterLayout)
     = calls worldAfterLayout
       ++ [TerminalService_getActiveOrCreateInstance;
           TerminalService_revealActiveTerminal;
           Widget_show {| widgetId := 0; widgetInstance := 1; widgetXterm := 7 |}].
Proof.
  split; [reflexivity|]. split; [reflexivity|]. split; [reflexivity|].
  destruct (focus_accessible_buffer_action worldAfterLayout) as (_ & _ & Hrun).
  destruct (Hrun sampleInstance sampleContribution) as [_ Hcalls];
    [reflexivity | reflexivity |].
  apply Hcalls. reflexivity.
Defined.

(** C4 as the specification words it fails: with accessibility mode on
    and the tab-focus key set, the Shift+Tab binding is still off while
    the accessible buffer has focus. *)
Lemma focus_binding_off_in_accessible_buffer :
  allKeysSet CONTEXT_ACCESSIBILITY_MODE_ENABLED = true
  /\ allKeysSet terminalTabFocusContextKey = true
  /\ bindingConditions allKeysSet FocusAccessibleBuffer = [false]
  /\ ~ (forall ctx : Context,
          ctx CONTEXT_ACCESSIBILITY_MODE_ENABLED = true ->
          ctx terminalTabFocusContextKey = true ->
          bindingConditions ctx FocusAccessibleBuffer = [true]).
Proof.
  split; [reflexivity|]. split; [reflexivity|]. split; [reflexivity|].
  intros Hall. specialize (Hall allKeysSet eq_refl eq_refl). discriminate Hall.
Qed.

(** C5.  [NavigateAccessibleBuffer] has one binding, Ctrl/Cmd+Shift+O,
    whose [when] clause holds exactly when the accessible buffer is
    focused.  Run on an instance that carries the contribution, the body
    is the prologue followed by the contribution's
    [createCommandQuickPick] and [show] on the quick pick it returns;
    when the widget is set and hands back a quick pick, the calls are
    resolve, reveal, the widget's [createQuickPick], the quick pick's
    [show]. *)
Theorem navigate_accessible_buffer_action (w : World) :
  boundChords NavigateAccessibleBuffer
  = [ {| modifiers := [KeyMod.CtrlCmd; KeyMod.Shift]; key := KeyCode.KeyO |} ]
  /\ (forall ctx : Context,
         bindingConditions ctx NavigateAccessibleBuffer
         = [ ctx TerminalContextKeys_accessibleBufferFocus ])
  /\ (forall instance contribution,
         activeInstance w = Some instance ->
         AccessibleBufferContribution.get instance = Some contribution ->
         Action.run NavigateAccessibleBuffer w
         = (quickPick <- AccessibleBufferContribution.createCommandQuickPick
                           contribution ;;
            opt_do quickPick QuickPick_show_) (prologue w)
         /\ forall widget q,
             accessibleBufferWidget w !! contributionId contribution = Some widget ->
             quickPickOf w widget = Some q ->
             calls (exec (Action.run NavigateAccessibleBuffer) w)
             = calls w
               ++ [TerminalService_getActiveOrCreateInstance;
                   TerminalService_revealActiveTerminal;
                   Widget_createQuickPick widget;
                   QuickPick_show q]).
Proof.
  split; [reflexivity|]. split; [reflexivity|].
  intros instance contribution Hactive Hget.
  destruct (run_with_contribution NavigateAccessibleBuffer w instance contribution)
    as [Hrun Hcalls]; [cbn; tauto | exact Hactive | exact Hget |].
  split; [exact Hrun|].
  intros widget q Hwidget Hpick. rewrite Hcalls.
  unfold delegationCalls. rewrite Hwidget. cbn. rewrite Hpick. reflexivity.
Qed.

Lemma navigate_accessible_buffer_action_witness :
  activeInstance worldAfterLayout = Some sampleInstance
  /\ AccessibleBufferContribution.get sampleInstance = Some sampleContribution
  /\ accessibleBufferWidget worldAfterLayout !! contributionId sampleContribution
     = Some {| widgetId := 0; widgetInstance := 1; widgetXterm := 7 |}
  /\ quickPickOf worldAfterLayout
       {| widgetId := 0; widgetInstance := 1; widgetXterm := 7 |} = Some 40
  /\ calls (exec (Action.run NavigateAccessibleBuffer) worldAfterLayout)
     = calls worldAfterLayout
       ++ [TerminalService_getActiveOrCreateInstance;
           TerminalService_revealActiveTerminal;
           Widget_createQuickPick
             {| widgetId := 0; widgetInstance := 1; widgetXterm := 7 |};
           QuickPick_show 40].
Proof.
  split; [reflexivity|]. split; [reflexivity|]. split; [reflexivity|].
  split; [reflexivity|].
  destruct (navigate_accessible_buffer_action worldAfterLayout) as (_ & _ & Hrun).
  destruct (Hrun sampleInstance sampleContribution) as [_ Hcalls];
    [reflexivity | reflexivity |].
  apply Hcalls; reflexivity.
Defined.

(** C6.  [AccessibleBufferGoToNextCommand] has one binding,
    Ctrl/Cmd+Down, and [AccessibleBufferGoToPreviousCommand] one,
    Ctrl/Cmd+Up; the [when] clause of each holds exactly when the
    accessible buffer is focused.  Run on an instance that carries the
    contribution, each body is the prologue followed by the
    contribution's [navigateToCommand], with [Next] for the first and
    [Previous] for the second; when the widget is set the calls are
    resolve, reveal, then the widget's [navigateToCommand] with that
    direction. *)
Theorem go_to_command_actions (w : World) :
  boundChords AccessibleBufferGoToNextCommand
  = [ {| modifiers := [KeyMod.CtrlCmd]; key := KeyCode.DownArrow |} ]
  /\ boundChords AccessibleBufferGoToPreviousCommand
     = [ {| modifiers := [KeyMod.CtrlCmd]; key := KeyCode.UpArrow |} ]
  /\ (forall ctx : Context,
         bindingConditions ctx AccessibleBufferGoToNextCommand
         = [ ctx TerminalContextKeys_accessibleBufferFocus ]
         /\ bindingConditions ctx AccessibleBufferGoToPreviousCommand
            = [ ctx TerminalContextKeys_accessibleBufferFocus ])
  /\ (forall instance contribution,
         activeInstance w = Some instance ->
         AccessibleBufferContribution.get instance = Some contribution ->
         (Action.run AccessibleBufferGoToNextCommand w
          = AccessibleBufferContribution.navigateToCommand contribution Next
              (prologue w)
          /\ Action.run AccessibleBufferGoToPreviousCommand w
             = AccessibleBufferContribution.navigateToCommand contribution Previous
                 (prologue w))
         /\ forall widget,
             accessibleBufferWidget w !! contributionId contribution = Some widget ->
             calls (exec (Action.run AccessibleBufferGoToNextCommand) w)
             = calls w
               ++ [TerminalService_getActiveOrCreateInstance;
                   TerminalService_revealActiveTerminal;
                   Widget_navigateToCommand widget Next]
             /\ calls (exec (Action.run AccessibleBufferGoToPreviousCommand) w)
                = calls w
                  ++ [TerminalService_getActiveOrCreateInstance;
                      TerminalService_revealActiveTerminal;
                      Widget_navigateToCommand widget Previous]).
Proof.
  split; [reflexivity|]. split; [reflexivity|]. split; [intros ctx; split; reflexivity|].
  intros instance contribution Hactive Hget.
  destruct (run_with_contribution AccessibleBufferGoToNextCommand w instance contribution)
    as [HrunN HcallsN]; [cbn; tauto | exact Hactive | exact Hget |].
  destruct (run_with_contribution AccessibleBufferGoToPreviousCommand w instance contribution)
    as [HrunP HcallsP]; [cbn; tauto | exact Hactive | exact Hget |].
  split; [split; [exact HrunN | exact HrunP]|].
  intros widget Hwidget. rewrite HcallsN, HcallsP.
  unfold delegationCalls. rewrite Hwidget. split; reflexivity.
Qed.

Lemma go_to_command_actions_witness :
  activeInstance worldAfterLayout = Some sampleInstance
  /\ AccessibleBufferContribution.get sampleInstance = Some sampleContribution
  /\ accessibleBufferWidget worldAfterLayout !! contributionId sampleContribution
     = Some {| widgetId := 0; widgetInstance := 1; widgetXterm := 7 |}
  /\ calls (exec (Action.run AccessibleBufferGoToPreviousCommand) worldAfterLayout)
     = calls worldAfterLayout
       ++ [TerminalService_getActiveOrCreateInstance;
           TerminalService_revealActiveTerminal;
           Widget_navigateToCommand
             {| widgetId := 0; widgetInstance := 1; widgetXterm := 7 |} Previous].
Proof.
  split; [reflexivity|]. split; [reflexivity|]. split; [reflexivity|].
  destruct (go_to_command_actions worldAfterLayout) as (_ & _ & _ & Hrun).
  destruct (Hrun sampleInstance sampleContribution) as [_ Hcalls];
    [reflexivity | reflexivity |].
  destruct (Hcalls {| widgetId := 0; widgetInstance := 1; widgetXterm := 7 |})
    as [_ Hprevious]; [reflexivity|].
  exact Hprevious.
Defined.

(** * Further properties *)

(** ** What the handlers leave alone *)

Lemma sameObjects_refl w : sameObjects w w.
Proof. repeat split. Qed.

Lemma sameObjects_trans w3 w2 w1 :
  sameObjects w3 w2 -> sameObjects w2 w1 -> sameObjects w3 w1.
Proof.
  intros (A3 & B3 & C3 & D3 & E3) (A2 & B2 & C2 & D2 & E2).
  repeat split; congruence.
Qed.

Lemma sameObjects_prologue w : sameObjects (prologue w) w.
Proof. repeat split. Qed.

Lemma delegation_sameObjects id contribution w :
  sameObjects (exec (delegation id contribution) w) w.
Proof.
  unfold exec, delegation,
    AccessibleBufferContribution.show,
    AccessibleBufferContribution.createCommandQuickPick,
    AccessibleBufferContribution.navigateToCommand,
    AccessibleBufferContribution.read_widget, bind.
  destruct id; cbv beta iota;
    destruct (accessibleBufferWidget w !! contributionId contribution) as [widget|];
    cbn; try apply sameObjects_refl; try (repeat split; fail).
  destruct (quickPickOf w widget); repeat split.
Qed.

Lemma action_sameObjects (a : Action.t) (w : World) :
  In a registeredActions -> sameObjects (exec (Action.run a) w) w.
Proof.
  intros Hin. unfold exec. rewrite (run_factor a w Hin).
  destruct (activeInstance w) as [instance|]; [|apply sameObjects_prologue].
  destruct (AccessibleBufferContribution.get instance) as [contribution|];
    cbn [opt_do]; [|apply sameObjects_prologue].
  apply (sameObjects_trans _ (prologue w)); [|apply sameObjects_prologue].
  apply delegation_sameObjects.
Qed.

(** The calls of the help implementation, by what the world offers. *)
Lemma help_calls (w : World) :
  calls (exec TerminalAccessibilityHelpContribution.implementation w)
  = calls w
    ++ TerminalService_getActiveOrCreateInstance
    :: TerminalService_revealActiveTerminal
    :: match activeInstance w ≫= (fun i => pair i <$> xterm i) with
       | Some (instance, terminal) =>
           let provider := {| providerInstance := instanceId instance;
                              providerXterm := terminal |} in
           [CreateInstance_TerminalAccessibleContentProvider provider;
            AccessibleViewService_registerProvider provider;
            AccessibleViewService_show "terminal"]
       | None => []
       end.
Proof.
  unfold exec, TerminalAccessibilityHelpContribution.implementation. cbn.
  destruct (activeInstance w) as [instance|]; cbn;
    [destruct (xterm instance) as [terminal|]; cbn|];
    rewrite <- ?app_assoc; reflexivity.
Qed.

Lemma help_sameObjects (w : World) :
  sameObjects (exec TerminalAccessibilityHelpContribution.implementation w) w.
Proof.
  unfold exec, TerminalAccessibilityHelpContribution.implementation. cbn.
  destruct (activeInstance w) as [instance|]; cbn;
    [destruct (xterm instance) as [terminal|]; cbn|]; repeat split.
Qed.

Lemma handler_sameObjects (h : M unit) (w : World) :
  In h registeredHandlers -> sameObjects (exec h w) w.
Proof.
  unfold registeredHandlers. intros Hin. apply in_app_or in Hin as [Hin|Hin].
  - apply in_map_iff in Hin as (a & <- & Hin). apply action_sameObjects, Hin.
  - destruct Hin as [<-|[]]. apply help_sameObjects.
Qed.

(** ** Counting calls *)

Lemma countCalls_grow kind (w' w : World) (es : list Event) :
  calls w' = calls w ++ es ->
  countCalls kind w' = countCalls kind w + length (filter (fun e => kind e = true) es).
Proof.
  intros Hcalls. unfold countCalls. rewrite Hcalls, filter_app, length_app.
  reflexivity.
Qed.

(** A kind of call that no delegation call belongs to does not occur
    among delegation calls. *)
Lemma filter_delegations_out (kind : Event -> bool) (es : list Event) :
  (forall e, is_delegation e = true -> kind e = false) ->
  Forall (fun e => is_delegation e = true) es ->
  filter (fun e => kind e = true) es = [].
Proof.
  intros Hkind Hall. induction Hall as [|e es He _ IH]; [reflexivity|].
  rewrite filter_cons. destruct (decide (kind e = true)) as [Hk|_]; [|exact IH].
  rewrite (Hkind e He) in Hk. discriminate.
Qed.

Lemma action_countCalls kind (a : Action.t) (w : World) :
  In a registeredActions ->
  (forall e, is_delegation e = true -> kind e = false) ->
  countCalls kind (exec (Action.run a) w)
  = countCalls kind w
    + length (filter (fun e => kind e = true)
                [TerminalService_getActiveOrCreateInstance;
                 TerminalService_revealActiveTerminal]).
Proof.
  intros Hin Hkind.
  destruct (action_calls_shape a w Hin) as (rest & Hcalls & Hall).
  rewrite (countCalls_grow kind _ w _ Hcalls).
  change (TerminalService_getActiveOrCreateInstance
            :: TerminalService_revealActiveTerminal :: rest)
    with ([TerminalService_getActiveOrCreateInstance;
           TerminalService_revealActiveTerminal] ++ rest).
  rewrite filter_app, length_app, (filter_delegations_out kind rest Hkind Hall).
  cbn [length]. lia.
Qed.

Lemma handler_widgetsConstructed (h : M unit) (w : World) :
  In h registeredHandlers ->
  widgetsConstructed (exec h w) = widgetsConstructed w.
Proof.
  intros Hin.
  change (countCalls is_widget_construction (exec h w)
          = countCalls is_widget_construction w).
  unfold registeredHandlers in Hin. apply in_app_or in Hin as [Hin|Hin].
  - apply in_map_iff in Hin as (a & <- & Hin).
    rewrite (action_countCalls is_widget_construction a w Hin).
    + apply Nat.add_0_r.
    + intros [] ?; reflexivity || discriminate.
  - destruct Hin as [<-|[]].
    rewrite (countCalls_grow is_widget_construction _ w _ (help_calls w)).
    destruct (activeInstance w ≫= (fun i => pair i <$> xterm i)) as [[i t]|];
      apply Nat.add_0_r.
Qed.

(** X1.  Run on an instance that has no contribution registered under
    ['terminal.accessible-buffer'], each of the four actions stops after
    resolving and revealing the terminal. *)
Theorem action_without_contribution (a : Action.t) (w : World)
    (instance : ITerminalInstance) :
  In a registeredActions ->
  activeInstance w = Some instance ->
  contributions instance !! AccessibleBufferContribution.ID = None ->
  Action.run a w = (tt, prologue w).
Proof.
  intros Hin Hactive Hnone.
  rewrite (run_factor a w Hin), Hactive.
  unfold AccessibleBufferContribution.get, getContribution.
  rewrite Hnone. reflexivity.
Qed.

Lemma action_without_contribution_witness :
  In NavigateAccessibleBuffer registeredActions
  /\ activeInstance (worldWith (Some sampleInstanceWithoutXterm))
     = Some sampleInstanceWithoutXterm
  /\ contributions sampleInstanceWithoutXterm !! AccessibleBufferContribution.ID = None
  /\ Action.run NavigateAccessibleBuffer (worldWith (Some sampleInstanceWithoutXterm))
     = (tt, prologue (worldWith (Some sampleInstanceWithoutXterm))).
Proof.
  split; [cbn; tauto|]. split; [reflexivity|]. split; [reflexivity|].
  apply (action_without_contribution NavigateAccessibleBuffer
           (worldWith (Some sampleInstanceWithoutXterm)) sampleInstanceWithoutXterm);
    [cbn; tauto | reflexivity | reflexivity].
Defined.

(** X2.  Run on an instance whose contribution has not been laid out
    (its widget field is unset), each of the four actions stops after
    resolving and revealing the terminal: nothing is shown, no quick
    pick is made, nothing is navigated. *)
Theorem action_before_layout (a : Action.t) (w : World)
    (instance : ITerminalInstance) (contribution : AccessibleBufferContribution_t) :
  In a registeredActions ->
  activeInstance w = Some instance ->
  AccessibleBufferContribution.get instance = Some contribution ->
  accessibleBufferWidget w !! contributionId contribution = None ->
  Action.run a w = (tt, prologue w).
Proof.
  intros Hin Hactive Hget Hunset.
  rewrite (run_factor a w Hin), Hactive, Hget. cbn [opt_do].
  unfold delegation,
    AccessibleBufferContribution.show,
    AccessibleBufferContribution.createCommandQuickPick,
    AccessibleBufferContribution.navigateToCommand,
    AccessibleBufferContribution.read_widget, bind.
  destruct (Action.id a); cbn; rewrite Hunset; reflexivity.
Qed.

Lemma action_before_layout_witness :
  In NavigateAccessibleBuffer registeredActions
  /\ activeInstance worldBeforeLayout = Some sampleInstance
  /\ AccessibleBufferContribution.get sampleInstance = Some sampleContribution
  /\ accessibleBufferWidget worldBeforeLayout !! contributionId sampleContribution = None
  /\ Action.run NavigateAccessibleBuffer worldBeforeLayout
     = (tt, prologue worldBeforeLayout).
Proof.
  split; [cbn; tauto|]. split; [reflexivity|]. split; [reflexivity|].
  split; [reflexivity|].
  apply (action_before_layout NavigateAccessibleBuffer worldBeforeLayout
           sampleInstance sampleContribution);
    [cbn; tauto | reflexivity | reflexivity | reflexivity].
Defined.

(** X3.  When the widget exists but its [createQuickPick] resolves to
    [undefined], [NavigateAccessibleBuffer] asks the widget for the quick
    pick and shows nothing: its calls are resolve, reveal and the
    widget's [createQuickPick], with no quick-pick [show]. *)
Theorem navigate_without_quick_pick (w : World)
    (instance : ITerminalInstance) (contribution : AccessibleBufferContribution_t)
    (widget : AccessibleBufferWidget) :
  activeInstance w = Some instance ->
  AccessibleBufferContribution.get instance = Some contribution ->
  accessibleBufferWidget w !! contributionId contribution = Some widget ->
  quickPickOf w widget = None ->
  Action.run NavigateAccessibleBuffer w
  = (tt, log_call (Widget_createQuickPick widget) (prologue w)).
Proof.
  intros Hactive Hget Hwidget Hpick.
  rewrite (run_factor NavigateAccessibleBuffer w) by (cbn; tauto).
  rewrite Hactive, Hget. cbn [opt_do Action.id NavigateAccessibleBuffer delegation].
  unfold AccessibleBufferContribution.createCommandQuickPick,
    AccessibleBufferContribution.read_widget, bind.
  cbn. rewrite Hwidget. cbn. rewrite Hpick. reflexivity.
Qed.

Lemma navigate_without_quick_pick_witness :
  activeInstance worldWithoutQuickPick = Some sampleInstance
  /\ AccessibleBufferContribution.get sampleInstance = Some sampleContribution
  /\ accessibleBufferWidget worldWithoutQuickPick !! contributionId sampleContribution
     = Some sampleWidget
  /\ quickPickOf worldWithoutQuickPick sampleWidget = None
  /\ calls (exec (Action.run NavigateAccessibleBuffer) worldWithoutQuickPick)
     = [TerminalService_getActiveOrCreateInstance;
        TerminalService_revealActiveTerminal;
        Widget_createQuickPick sampleWidget].
Proof.
  split; [reflexivity|]. split; [reflexivity|]. split; [reflexivity|].
  split; [reflexivity|].
  unfold exec.
  rewrite (navigate_without_quick_pick worldWithoutQuickPick
             sampleInstance sampleContribution sampleWidget);
    reflexivity.
Defined.

(** X4.  None of the five handlers constructs a widget or touches a
    contribution: after a handler the active instance, every widget
    field, every disposable store and the allocation counter are as
    before, and the number of widgets constructed has not changed; only
    [layout] makes the widget. *)
Theorem handlers_never_construct (h : M unit) (w : World) :
  In h registeredHandlers ->
  sameObjects (exec h w) w
  /\ widgetsConstructed (exec h w) = widgetsConstructed w.
Proof.
  intros Hin. split;
    [apply handler_sameObjects, Hin | apply handler_widgetsConstructed, Hin].
Qed.

Lemma handlers_never_construct_witness :
  In (Action.run FocusAccessibleBuffer) registeredHandlers
  /\ accessibleBufferWidget (exec (Action.run FocusAccessibleBuffer) worldBeforeLayout)
     = accessibleBufferWidget worldBeforeLayout
  /\ widgetsConstructed (exec (Action.run FocusAccessibleBuffer) worldBeforeLayout)
     = widgetsConstructed worldBeforeLayout.
Proof.
  assert (Hin : In (Action.run FocusAccessibleBuffer) registeredHandlers)
    by (cbn; tauto).
  split; [exact Hin|].
  destruct (handlers_never_construct (Action.run FocusAccessibleBuffer)
              worldBeforeLayout Hin) as [(_ & _ & Hfield & _) Hcount].
  split; [exact Hfield | exact Hcount].
Defined.

(** X5.  Every run of any of the five handlers resolves the active
    terminal exactly once and reveals it exactly once, whatever the
    world. *)
Theorem handlers_resolve_and_reveal_once (h : M unit) (w : World) :
  In h registeredHandlers ->
  countCalls is_resolve (exec h w) = countCalls is_resolve w + 1
  /\ countCalls is_reveal (exec h w) = countCalls is_reveal w + 1.
Proof.
  intros Hin. unfold registeredHandlers in Hin. apply in_app_or in Hin as [Hin|Hin].
  - apply in_map_iff in Hin as (a & <- & Hin). split.
    + rewrite (action_countCalls is_resolve a w Hin); [reflexivity|].
      intros [] ?; reflexivity || discriminate.
    + rewrite (action_countCalls is_reveal a w Hin); [reflexivity|].
      intros [] ?; reflexivity || discriminate.
  - destruct Hin as [<-|[]].
    rewrite (countCalls_grow is_resolve _ w _ (help_calls w)).
    rewrite (countCalls_grow is_reveal _ w _ (help_calls w)).
    destruct (activeInstance w ≫= (fun i => pair i <$> xterm i)) as [[i t]|];
      split; reflexivity.
Qed.

Lemma handlers_resolve_and_reveal_once_witness :
  In (Action.run NavigateAccessibleBuffer) registeredHandlers
  /\ countCalls is_reveal (exec (Action.run NavigateAccessibleBuffer) worldAfterLayout)
     = countCalls is_reveal worldAfterLayout + 1.
Proof.
  assert (Hin : In (Action.run NavigateAccessibleBuffer) registeredHandlers)
    by (cbn; tauto).
  split; [exact Hin|].
  destruct (handlers_resolve_and_reveal_once
              (Action.run NavigateAccessibleBuffer) worldAfterLayout Hin)
    as [_ Hreveal].
  exact Hreveal.
Defined.

(** X6.  The two families of handlers keep to their own collaborators:
    no action ever makes a content provider or calls the accessible-view
    service, and the help implementation never calls the buffer widget
    or a quick pick. *)
Theorem handlers_keep_to_their_services (w : World) :
  (forall id : TerminalCommandId.t,
      countCalls is_help_call (exec (Action.run (actionOf id)) w)
      = countCalls is_help_call w)
  /\ countCalls is_delegation
       (exec TerminalAccessibilityHelpContribution.implementation w)
     = countCalls is_delegation w.
Proof.
  split.
  - intros id.
    rewrite (action_countCalls is_help_call (actionOf id) w).
    + apply Nat.add_0_r.
    + destruct id; cbn; tauto.
    + intros [] ?; reflexivity || discriminate.
  - rewrite (countCalls_grow is_delegation _ w _ (help_calls w)).
    destruct (activeInstance w ≫= (fun i => pair i <$> xterm i)) as [[i t]|];
      apply Nat.add_0_r.
Qed.

(** ** Histories of layouts and handler runs *)

Lemma actionOf_registered (id : TerminalCommandId.t) :
  In (actionOf id) registeredActions.
Proof. destruct id; cbn; tauto. Qed.

Lemma runOp_handler (op : Op) :
  match op with
  | OpLayout _ _ => True
  | _ => In (runOp op) registeredHandlers
  end.
Proof.
  destruct op as [this x|id|]; [exact I| |].
  - unfold registeredHandlers. apply in_or_app. left.
    apply (in_map Action.run _ (actionOf id)), actionOf_registered.
  - unfold registeredHandlers. apply in_or_app. right. cbn. tauto.
Qed.

Lemma exec_runOps_cons (op : Op) (rest : list Op) (w : World) :
  exec (runOps (op :: rest)) w = exec (runOps rest) (exec (runOp op) w).
Proof. cbn [runOps]. apply exec_bind. Qed.

(** The effect of one operation on the widget fields: a layout of a
    contribution whose field is unset stores a newly allocated widget
    there; anything else leaves fields and counter alone. *)
Lemma runOp_fields (op : Op) (w : World) :
  (exists this x,
      op = OpLayout this x
      /\ accessibleBufferWidget w !! contributionId this = None
      /\ accessibleBufferWidget (exec (runOp op) w)
         = <[contributionId this :=
               {| widgetId := nextWidgetId w;
                  widgetInstance := _instance this;
                  widgetXterm := x |}]> (accessibleBufferWidget w)
      /\ nextWidgetId (exec (runOp op) w) = S (nextWidgetId w)
      /\ widgetsConstructed (exec (runOp op) w) = S (widgetsConstructed w))
  \/ (accessibleBufferWidget (exec (runOp op) w) = accessibleBufferWidget w
      /\ nextWidgetId (exec (runOp op) w) = nextWidgetId w
      /\ widgetsConstructed (exec (runOp op) w) = widgetsConstructed w).
Proof.
  pose proof (runOp_handler op) as Hhandler.
  destruct op as [this x|id|].
  - cbn [runOp]. unfold exec.
    destruct (accessibleBufferWidget w !! contributionId this) as [widget|] eqn:Hw.
    + right. rewrite (layout_existing this x w widget Hw). repeat split.
    + left. exists this, x. rewrite (layout_fresh this x w Hw). cbn [snd].
      repeat split; try reflexivity; try exact Hw.
      unfold widgetsConstructed. cbn [calls].
      rewrite filter_app, length_app, Nat.add_comm. reflexivity.
  - right.
    destruct (handler_sameObjects _ w Hhandler) as (_ & _ & Hfield & _ & Hnext).
    repeat split; [exact Hfield | exact Hnext |].
    apply handler_widgetsConstructed, Hhandler.
  - right.
    destruct (handler_sameObjects _ w Hhandler) as (_ & _ & Hfield & _ & Hnext).
    repeat split; [exact Hfield | exact Hnext |].
    apply handler_widgetsConstructed, Hhandler.
Qed.

(** X7.  Over any history of layouts (of any contributions) and handler
    runs, the number of widgets constructed equals the number of
    contributions whose widget field became set: one construction per
    contribution, and none that is not kept. *)
Theorem one_widget_per_contribution (ops : list Op) (w : World) :
  widgetsConstructed (exec (runOps ops) w) + size (accessibleBufferWidget w)
  = widgetsConstructed w + size (accessibleBufferWidget (exec (runOps ops) w)).
Proof.
  revert w. induction ops as [|op rest IH]; intros w; [reflexivity|].
  rewrite exec_runOps_cons.
  specialize (IH (exec (runOp op) w)).
  destruct (runOp_fields op w)
    as [(this & x & _ & Hunset & Hfield & _ & Hcount) | (Hfield & _ & Hcount)].
  - rewrite Hfield, Hcount in IH.
    rewrite (map_size_insert_None _ _ _ Hunset) in IH. lia.
  - rewrite Hfield, Hcount in IH. exact IH.
Qed.

(** X8.  Once a contribution holds a widget it holds that same widget
    for good: no later layout, with whatever xterm, and no handler run
    replaces or clears it. *)
Theorem widget_field_stable (ops : list Op) (w : World)
    (c : nat) (widget : AccessibleBufferWidget) :
  accessibleBufferWidget w !! c = Some widget ->
  accessibleBufferWidget (exec (runOps ops) w) !! c = Some widget.
Proof.
  revert w. induction ops as [|op rest IH]; intros w Hset; [exact Hset|].
  rewrite exec_runOps_cons. apply IH.
  destruct (runOp_fields op w)
    as [(this & x & _ & Hunset & Hfield & _) | (Hfield & _)];
    rewrite Hfield; [|exact Hset].
  rewrite lookup_insert_ne; [exact Hset|].
  intros Heq. rewrite Heq in Hunset. congruence.
Qed.

Lemma widget_field_stable_witness :
  accessibleBufferWidget worldAfterLayout !! 0 = Some sampleWidget
  /\ accessibleBufferWidget
       (exec (runOps [OpLayout sampleContribution 9;
                      OpAction TerminalCommandId.FocusAccessibleBuffer;
                      OpLayout otherContribution 3;
                      OpHelp;
                      OpLayout sampleContribution 11])
             worldAfterLayout) !! 0
     = Some sampleWidget.
Proof.
  split; [reflexivity|].
  apply (widget_field_stable _ worldAfterLayout 0 sampleWidget). reflexivity.
Defined.

(** X9.  Widgets are never shared: if every held widget was allocated
    earlier and no two contributions hold the same widget, both remain
    true after any history of layouts and handler runs; in particular,
    starting with no widget at all, contributions laid out later always
    hold pairwise different widgets. *)
Theorem widgets_never_shared (ops : list Op) (w : World) :
  widgetsAllocated w ->
  widgetsDistinct w ->
  widgetsAllocated (exec (runOps ops) w)
  /\ widgetsDistinct (exec (runOps ops) w).
Proof.
  revert w. induction ops as [|op rest IH]; intros w Halloc Hdist;
    [split; assumption|].
  rewrite exec_runOps_cons.
  destruct (runOp_fields op w)
    as [(this & x & _ & Hunset & Hfield & Hnext & _) | (Hfield & Hnext & _)].
  - apply IH.
    + intros c widget. rewrite Hfield, Hnext, lookup_insert.
      destruct (decide (contributionId this = c)) as [_|_].
      * intros [= <-]. cbn. lia.
      * intros Hc. specialize (Halloc c widget Hc). lia.
    + intros c1 c2 widget1 widget2 Hne. rewrite Hfield, !lookup_insert.
      destruct (decide (contributionId this = c1)) as [E1|_],
               (decide (contributionId this = c2)) as [E2|_].
      * exfalso. apply Hne. congruence.
      * intros [= <-] H2. specialize (Halloc c2 widget2 H2). cbn. lia.
      * intros H1 [= <-]. specialize (Halloc c1 widget1 H1). cbn. lia.
      * intros H1 H2. exact (Hdist c1 c2 widget1 widget2 Hne H1 H2).
  - apply IH.
    + intros c widget. rewrite Hfield, Hnext. apply Halloc.
    + intros c1 c2 widget1 widget2 Hne. rewrite Hfield. apply Hdist, Hne.
Qed.

Lemma sample_widgets_allocated : widgetsAllocated worldAfterLayout.
Proof.
  intros c widget.
  change (accessibleBufferWidget worldAfterLayout)
    with (<[0 := sampleWidget]> (∅ : gmap nat AccessibleBufferWidget)).
  rewrite lookup_insert. destruct (decide (0 = c)) as [_|_].
  - intros [= <-]. vm_compute. lia.
  - rewrite lookup_empty. discriminate.
Qed.

Lemma sample_widgets_distinct : widgetsDistinct worldAfterLayout.
Proof.
  intros c1 c2 widget1 widget2 Hne.
  change (accessibleBufferWidget worldAfterLayout)
    with (<[0 := sampleWidget]> (∅ : gmap nat AccessibleBufferWidget)).
  rewrite !lookup_insert.
  destruct (decide (0 = c1)) as [<-|_], (decide (0 = c2)) as [<-|_];
    rewrite ?lookup_empty; congruence.
Qed.

Lemma widgets_never_shared_witness :
  widgetsAllocated worldAfterLayout
  /\ widgetsDistinct worldAfterLayout
  /\ widgetsDistinct
       (exec (runOps [OpLayout otherContribution 3;
                      OpAction TerminalCommandId.NavigateAccessibleBuffer;
                      OpLayout sampleContribution 9])
             worldAfterLayout).
Proof.
  split; [exact sample_widgets_allocated|].
  split; [exact sample_widgets_distinct|].
  apply (widgets_never_shared _ worldAfterLayout
           sample_widgets_allocated sample_widgets_distinct).
Defined.

(** ** Layout, then the actions *)

(** X10.  On an instance that carries a contribution not yet laid out,
    one [layout] with an xterm is what makes the actions reach the
    buffer: afterwards each action resolves, reveals, and calls the
    widget that this layout made from the contribution's instance and
    that xterm ([show], [createQuickPick] followed by the quick pick's
    [show] when there is one, [navigateToCommand] with [Next] or
    [Previous]). *)
Theorem layout_enables_actions (w : World)
    (instance : ITerminalInstance) (contribution : AccessibleBufferContribution_t)
    (x : Xterm) :
  activeInstance w = Some instance ->
  AccessibleBufferContribution.get instance = Some contribution ->
  accessibleBufferWidget w !! contributionId contribution = None ->
  let widget := {| widgetId := nextWidgetId w;
                   widgetInstance := _instance contribution;
                   widgetXterm := x |} in
  let laidOut := exec (AccessibleBufferContribution.layout contribution x) w in
  let before := calls w
                ++ [CreateInstance_AccessibleBufferWidget widget;
                    TerminalService_getActiveOrCreateInstance;
                    TerminalService_revealActiveTerminal] in
  calls (exec (Action.run FocusAccessibleBuffer) laidOut)
  = before ++ [Widget_show widget]
  /\ calls (exec (Action.run NavigateAccessibleBuffer) laidOut)
     = before ++ Widget_createQuickPick widget
              :: match quickPickOf w widget with
                 | Some q => [QuickPick_show q]
                 | None => []
                 end
  /\ calls (exec (Action.run AccessibleBufferGoToNextCommand) laidOut)
     = before ++ [Widget_navigateToCommand widget Next]
  /\ calls (exec (Action.run AccessibleBufferGoToPreviousCommand) laidOut)
     = before ++ [Widget_navigateToCommand widget Previous].
Proof.
  intros Hactive Hget Hunset widget laidOut before.
  assert (Hrun : forall id,
             calls (exec (Action.run (actionOf id)) laidOut)
             = before ++ delegationCalls id contribution laidOut).
  { intros id.
    destruct (run_with_contribution (actionOf id) laidOut instance contribution)
      as [_ Hcalls].
    - apply actionOf_registered.
    - subst laidOut. unfold exec. rewrite (layout_fresh contribution x w Hunset).
      exact Hactive.
    - exact Hget.
    - rewrite Hcalls. subst before laidOut. unfold exec at 1.
      rewrite (layout_fresh contribution x w Hunset). cbn [snd calls].
      replace (Action.id (actionOf id)) with id by (destruct id; reflexivity).
      rewrite <- !app_assoc. reflexivity. }
  assert (Hfield : accessibleBufferWidget laidOut !! contributionId contribution
                   = Some widget).
  { subst laidOut. unfold exec. rewrite (layout_fresh contribution x w Hunset).
    cbn. apply lookup_insert_eq. }
  assert (Hpick : quickPickOf laidOut = quickPickOf w).
  { subst laidOut. unfold exec. rewrite (layout_fresh contribution x w Hunset).
    reflexivity. }
  pose proof (Hrun TerminalCommandId.FocusAccessibleBuffer) as HF.
  pose proof (Hrun TerminalCommandId.NavigateAccessibleBuffer) as HN.
  pose proof (Hrun TerminalCommandId.AccessibleBufferGoToNextCommand) as HX.
  pose proof (Hrun TerminalCommandId.AccessibleBufferGoToPreviousCommand) as HP.
  unfold delegationCalls in HF, HN, HX, HP.
  rewrite Hfield in HF, HN, HX, HP. rewrite Hpick in HN.
  repeat split; assumption.
Qed.

Lemma layout_enables_actions_witness :
  activeInstance worldBeforeLayout = Some sampleInstance
  /\ AccessibleBufferContribution.get sampleInstance = Some sampleContribution
  /\ accessibleBufferWidget worldBeforeLayout !! contributionId sampleContribution = None
  /\ calls (exec (Action.run AccessibleBufferGoToNextCommand)
              (exec (AccessibleBufferContribution.layout sampleContribution 7)
                    worldBeforeLayout))
     = [CreateInstance_AccessibleBufferWidget sampleWidget;
        TerminalService_getActiveOrCreateInstance;
        TerminalService_revealActiveTerminal;
        Widget_navigateToCommand sampleWidget Next].
Proof.
  split; [reflexivity|]. split; [reflexivity|]. split; [reflexivity|].
  destruct (layout_enables_actions worldBeforeLayout sampleInstance
              sampleContribution 7) as (_ & _ & Hnext & _);
    [reflexivity | reflexivity | reflexivity |].
  exact Hnext.
Defined.

(** ** The help implementation, run again *)

(** X11.  The help implementation has no guard against registering
    twice: in a world whose active instance has an xterm, [n] runs
    register [n] providers, where [layout] would have made one widget. *)
Theorem help_registers_on_every_run (n : nat) (w : World)
    (instance : ITerminalInstance) (terminal : Xterm) :
  activeInstance w = Some instance ->
  xterm instance = Some terminal ->
  countCalls is_provider_registration
    (exec (times n TerminalAccessibilityHelpContribution.implementation) w)
  = countCalls is_provider_registration w + n.
Proof.
  revert w. induction n as [|n IH]; intros w Hactive Hxterm.
  - cbn. lia.
  - cbn [times]. rewrite exec_bind.
    destruct (help_sameObjects w) as (Hsame & _).
    rewrite IH by (rewrite ?Hsame; assumption).
    rewrite (countCalls_grow is_provider_registration _ w _ (help_calls w)).
    rewrite Hactive. cbn [mbind option_bind]. rewrite Hxterm.
    cbn [fmap option_fmap option_map length]. rewrite <- Nat.add_assoc.
    reflexivity.
Qed.

Lemma help_registers_on_every_run_witness :
  activeInstance worldBeforeLayout = Some sampleInstance
  /\ xterm sampleInstance = Some 7
  /\ countCalls is_provider_registration
       (exec (times 3 TerminalAccessibilityHelpContribution.implementation)
             worldBeforeLayout)
     = 3.
Proof.
  split; [reflexivity|]. split; [reflexivity|].
  apply (help_registers_on_every_run 3 worldBeforeLayout sampleInstance 7);
    reflexivity.
Defined.

(** ** Preconditions and bindings together *)

(** X12.  The preconditions of the four actions are nested: those of
    [FocusAccessibleBuffer] and [NavigateAccessibleBuffer] are the same
    ([processSupported] or [terminalHasBeenCreated]); whenever
    [AccessibleBufferGoToPreviousCommand] is enabled so are they; and
    whenever they are enabled so is [AccessibleBufferGoToNextCommand]. *)
Theorem preconditions_nested (ctx : Context) :
  evaluate ctx (Action.precondition FocusAccessibleBuffer)
  = ctx TerminalContextKeys_processSupported
    || ctx TerminalContextKeys_terminalHasBeenCreated
  /\ evaluate ctx (Action.precondition NavigateAccessibleBuffer)
     = evaluate ctx (Action.precondition FocusAccessibleBuffer)
  /\ (evaluate ctx (Action.precondition AccessibleBufferGoToPreviousCommand) = true ->
      evaluate ctx (Action.precondition FocusAccessibleBuffer) = true)
  /\ (evaluate ctx (Action.precondition FocusAccessibleBuffer) = true ->
      evaluate ctx (Action.precondition AccessibleBufferGoToNextCommand) = true).
Proof.
  cbn.
  destruct (ctx TerminalContextKeys_processSupported),
    (ctx TerminalContextKeys_terminalHasBeenCreated),
    (ctx TerminalContextKeys_accessibleBufferFocus);
    cbn; repeat split; auto.
Qed.

Lemma preconditions_nested_witness :
  (evaluate allKeysSet (Action.precondition AccessibleBufferGoToPreviousCommand) = true
   /\ evaluate allKeysSet (Action.precondition FocusAccessibleBuffer) = true)
  /\ (evaluate onlyProcessSupported (Action.precondition FocusAccessibleBuffer) = true
      /\ evaluate onlyProcessSupported
           (Action.precondition AccessibleBufferGoToNextCommand) = true).
Proof.
  split.
  - split; [reflexivity|].
    destruct (preconditions_nested allKeysSet) as (_ & _ & Hprevious & _).
    apply Hprevious. reflexivity.
  - split; [reflexivity|].
    destruct (preconditions_nested onlyProcessSupported) as (_ & _ & _ & Hnext).
    apply Hnext. reflexivity.
Defined.

(** X13.  Whenever the Ctrl/Cmd+Down binding of
    [AccessibleBufferGoToNextCommand] is on, the action's precondition
    holds; the same is not so for [AccessibleBufferGoToPreviousCommand]
    and [NavigateAccessibleBuffer]: with the buffer focused but neither
    process support nor a created terminal, their bindings are on and
    their preconditions fail. *)
Theorem next_binding_implies_precondition :
  (forall ctx : Context,
      bindingConditions ctx AccessibleBufferGoToNextCommand = [true] ->
      evaluate ctx (Action.precondition AccessibleBufferGoToNextCommand) = true)
  /\ (exists ctx : Context,
         bindingConditions ctx AccessibleBufferGoToPreviousCommand = [true]
         /\ evaluate ctx (Action.precondition AccessibleBufferGoToPreviousCommand)
            = false
         /\ bindingConditions ctx NavigateAccessibleBuffer = [true]
         /\ evaluate ctx (Action.precondition NavigateAccessibleBuffer) = false).
Proof.
  split.
  - intros ctx. cbn. intros [= ->].
    destruct (ctx TerminalContextKeys_processSupported),
      (ctx TerminalContextKeys_terminalHasBeenCreated); reflexivity.
  - exists onlyBufferFocused. repeat split.
Qed.

Lemma next_binding_implies_precondition_witness :
  bindingConditions onlyBufferFocused AccessibleBufferGoToNextCommand = [true]
  /\ evaluate onlyBufferFocused
       (Action.precondition AccessibleBufferGoToNextCommand) = true.
Proof.
  split; [reflexivity|].
  destruct next_binding_implies_precondition as [Hnext _].
  apply Hnext. reflexivity.
Defined.

(** X14.  The bindings of the four actions do not collide: no chord is
    bound to two of them, and in no context is the Shift+Tab binding of
    [FocusAccessibleBuffer] on together with the binding of any of the
    other three, which need the accessible buffer focused. *)
Theorem bindings_do_not_collide :
  (forall (id1 id2 : TerminalCommandId.t) (chord : Chord),
      In chord (boundChords (actionOf id1)) ->
      In chord (boundChords (actionOf id2)) ->
      id1 = id2)
  /\ (forall (ctx : Context) (id : TerminalCommandId.t),
         id <> TerminalCommandId.FocusAccessibleBuffer ->
         bindingConditions ctx FocusAccessibleBuffer = [true] ->
         bindingConditions ctx (actionOf id) = [false]).
Proof.
  split.
  - intros id1 id2 chord H1 H2.
    destruct id1; cbn in H1; destruct H1 as [<-|[]];
      destruct id2; cbn in H2; destruct H2 as [H2|[]];
      reflexivity || discriminate H2.
  - intros ctx id Hid.
    destruct id; [contradiction|..]; cbn;
      destruct (ctx TerminalContextKeys_accessibleBufferFocus);
      rewrite ?andb_false_r; intros H; reflexivity || discriminate H.
Qed.

Lemma bindings_do_not_collide_witness :
  (In {| modifiers := [KeyMod.CtrlCmd]; key := KeyCode.UpArrow |}
      (boundChords (actionOf TerminalCommandId.AccessibleBufferGoToPreviousCommand))
   /\ TerminalCommandId.AccessibleBufferGoToPreviousCommand
      = TerminalCommandId.AccessibleBufferGoToPreviousCommand)
  /\ (TerminalCommandId.NavigateAccessibleBuffer
      <> TerminalCommandId.FocusAccessibleBuffer
      /\ bindingConditions onlyFocusBinding FocusAccessibleBuffer = [true]
      /\ bindingConditions onlyFocusBinding
           (actionOf TerminalCommandId.NavigateAccessibleBuffer) = [false]).
Proof.
  destruct bindings_do_not_collide as [Hchord Hwhen].
  split.
  - split; [cbn; tauto|].
    apply (Hchord _ _ {| modifiers := [KeyMod.CtrlCmd]; key := KeyCode.UpArrow |});
      cbn; tauto.
  - split; [discriminate|]. split; [reflexivity|].
    apply Hwhen; [discriminate | reflexivity].
Defined.
